(** * scripts/evaluate_swebench_success_rate.py

    A shallow embedding of the script and of the fragment of the Python
    runtime it runs on (str as code points, [re.search] on the pattern the
    script uses, [int], [float], [pathlib], f-string formatting and
    [json.dumps]), followed by the properties of the script. *)

From Stdlib Require Import List ZArith NArith Arith Lia Bool String Ascii.
From Stdlib Require Import Floats.SpecFloat.
Import ListNotations.

Set Implicit Arguments.

(** ** Python text: a [str] is a sequence of Unicode code points *)

Module PyStr.

Definition char := N.
Definition str := list char.

(** A literal of the source, written as a Rocq string. *)
Definition u (s : string) : str := map N_of_ascii (list_ascii_of_string s).

Definition nl : str := [10%N].
Definition dquote : char := 34%N.

Fixpoint str_eqb (a b : str) : bool :=
  match a, b with
  | [], [] => true
  | x :: a', y :: b' => N.eqb x y && str_eqb a' b'
  | _, _ => false
  end.

(** [needle in hay] *)
Definition contains (needle hay : str) : Prop :=
  exists before after, hay = before ++ needle ++ after.

(** The first code point of every run of ten decimal digits (general
    category Nd) of the Unicode character database, version 14.0. *)
Definition decimal_zeros : list N :=
  [0x30; 0x660; 0x6f0; 0x7c0; 0x966; 0x9e6; 0xa66; 0xae6; 0xb66; 0xbe6;
   0xc66; 0xce6; 0xd66; 0xde6; 0xe50; 0xed0; 0xf20; 0x1040; 0x1090; 0x17e0;
   0x1810; 0x1946; 0x19d0; 0x1a80; 0x1a90; 0x1b50; 0x1bb0; 0x1c40; 0x1c50;
   0xa620; 0xa8d0; 0xa900; 0xa9d0; 0xa9f0; 0xaa50; 0xabf0; 0xff10; 0x104a0;
   0x10d30; 0x11066; 0x110f0; 0x11136; 0x111d0; 0x112f0; 0x11450; 0x114d0;
   0x11650; 0x116c0; 0x11730; 0x118e0; 0x11950; 0x11c50; 0x11d50; 0x11da0;
   0x16a60; 0x16ac0; 0x16b50; 0x1d7ce; 0x1d7d8; 0x1d7e2; 0x1d7ec; 0x1d7f6;
   0x1e140; 0x1e2f0; 0x1e950; 0x1fbf0]%N.

(** The code points for which [str.isspace] holds. *)
Definition whitespace : list N :=
  [0x9; 0xa; 0xb; 0xc; 0xd; 0x1c; 0x1d; 0x1e; 0x1f; 0x20; 0x85; 0xa0;
   0x1680; 0x2000; 0x2001; 0x2002; 0x2003; 0x2004; 0x2005; 0x2006; 0x2007;
   0x2008; 0x2009; 0x200a; 0x2028; 0x2029; 0x202f; 0x205f; 0x3000]%N.

Fixpoint decimal_in (zeros : list N) (c : char) : option Z :=
  match zeros with
  | [] => None
  | z :: zeros' =>
      if (z <=? c)%N && (c <? z + 10)%N then Some (Z.of_N (c - z))
      else decimal_in zeros' c
  end.

(** The decimal value of a code point, if it is a decimal digit. *)
Definition Py_UNICODE_TODECIMAL (c : char) : option Z :=
  decimal_in decimal_zeros c.

Definition Py_UNICODE_ISDECIMAL (c : char) : bool :=
  match Py_UNICODE_TODECIMAL c with Some _ => true | None => false end.

Definition Py_UNICODE_ISSPACE (c : char) : bool :=
  existsb (N.eqb c) whitespace.

End PyStr.
Import PyStr.

(** ** The regular-expression engine, on the fragment the pattern uses

    [sre_parse] reads the pattern text: literals, the escapes [\d], [\s]
    and escaped punctuation, the greedy quantifiers [*] and [+] on a
    single character, and capturing groups.  [sre_match] is the
    backtracking matcher: a greedy repeat first takes the longest run and
    gives characters back one at a time while the rest of the pattern
    fails; [sre_search] tries every start position from the left. *)

Module Sre.

Inductive category := CATEGORY_DIGIT | CATEGORY_SPACE.

Inductive atom :=
  | LITERAL (c : char)
  | IN_CATEGORY (k : category).

Inductive op :=
  | AT (a : atom)                      (* one character *)
  | MAX_REPEAT_ONE (min : nat) (a : atom)  (* greedy, no upper bound *)
  | MARK (i : nat).                    (* group boundary 2g-2 / 2g-1 *)

Definition code := list op.

Definition is_ascii_alnum (c : char) : bool :=
  ((48 <=? c) && (c <=? 57) || (65 <=? c) && (c <=? 90)
   || (97 <=? c) && (c <=? 122))%N.

(** An escape: [\d] and [\s] are categories, an escaped character that is
    not an ASCII letter or digit stands for itself; other escapes are
    outside the fragment. *)
Definition escape (c : char) : option atom :=
  if (c =? 100)%N then Some (IN_CATEGORY CATEGORY_DIGIT)
  else if (c =? 115)%N then Some (IN_CATEGORY CATEGORY_SPACE)
  else if is_ascii_alnum c then None
  else Some (LITERAL c).

(** Characters with a meaning of their own that the fragment does not
    cover as plain literals: . ^ $ * + ? { } [ ] | ( ) and backslash. *)
Definition is_special (c : char) : bool :=
  existsb (N.eqb c) [46; 94; 36; 42; 43; 63; 123; 125; 91; 93; 124; 40; 41; 92]%N.

Definition cons_op (o : op) (r : option code) : option code :=
  match r with Some c => Some (o :: c) | None => None end.

(** [groups] is the number of groups opened so far, [open] the stack of
    the groups not closed yet.  An atom is followed by at most one of the
    quantifiers [*] and [+]; a special character anywhere else is outside
    the fragment. *)
Fixpoint sre_parse (p : str) (groups : nat) (open : list nat) : option code :=
  match p with
  | [] => match open with [] => Some [] | _ => None end
  | c :: p1 =>
      if (c =? 40)%N then
        cons_op (MARK (2 * groups)) (sre_parse p1 (S groups) (S groups :: open))
      else if (c =? 41)%N then
        match open with
        | g :: open' => cons_op (MARK (2 * g - 1)) (sre_parse p1 groups open')
        | [] => None
        end
      else if (c =? 92)%N then
        match p1 with
        | e :: p2 =>
            match escape e with
            | Some a =>
                match p2 with
                | q :: p3 =>
                    if (q =? 42)%N then
                      cons_op (MAX_REPEAT_ONE 0 a) (sre_parse p3 groups open)
                    else if (q =? 43)%N then
                      cons_op (MAX_REPEAT_ONE 1 a) (sre_parse p3 groups open)
                    else cons_op (AT a) (sre_parse p2 groups open)
                | [] => cons_op (AT a) (sre_parse p2 groups open)
                end
            | None => None
            end
        | [] => None
        end
      else if is_special c then None
      else
        match p1 with
        | q :: p2 =>
            if (q =? 42)%N then
              cons_op (MAX_REPEAT_ONE 0 (LITERAL c)) (sre_parse p2 groups open)
            else if (q =? 43)%N then
              cons_op (MAX_REPEAT_ONE 1 (LITERAL c)) (sre_parse p2 groups open)
            else cons_op (AT (LITERAL c)) (sre_parse p1 groups open)
        | [] => cons_op (AT (LITERAL c)) (sre_parse p1 groups open)
        end
  end.

Definition category_matches (k : category) (c : char) : bool :=
  match k with
  | CATEGORY_DIGIT => Py_UNICODE_ISDECIMAL c
  | CATEGORY_SPACE => Py_UNICODE_ISSPACE c
  end.

Definition atom_matches (a : atom) (c : char) : bool :=
  match a with
  | LITERAL l => (c =? l)%N
  | IN_CATEGORY k => category_matches k c
  end.

(** The length of the longest prefix of [s] whose characters match [a]. *)
Fixpoint count (a : atom) (s : str) : nat :=
  match s with
  | c :: s' => if atom_matches a c then S (count a s') else 0
  | [] => 0
  end.

(** A mark is a pointer into the text, that is, the suffix that starts
    there. *)
Definition marks := list (nat * str).

Fixpoint get_mark (i : nat) (ms : marks) : option str :=
  match ms with
  | [] => None
  | (j, p) :: ms' => if Nat.eqb i j then Some p else get_mark i ms'
  end.

Definition set_mark (i : nat) (p : str) (ms : marks) : marks := (i, p) :: ms.

(** Tries [f (lo + d)], [f (lo + d - 1)], ..., [f lo] and returns the
    first success. *)
Fixpoint backtrack {R : Type} (lo d : nat) (f : nat -> option R) : option R :=
  match d with
  | 0 => f lo
  | S d' =>
      match f (lo + d) with
      | Some r => Some r
      | None => backtrack lo d' f
      end
  end.

(** Matches [c] at the start of [s]; on success, the marks and the end
    pointer. *)
Fixpoint sre_match (c : code) (s : str) (ms : marks) : option (marks * str) :=
  match c with
  | [] => Some (ms, s)
  | AT a :: c' =>
      match s with
      | x :: s' => if atom_matches a x then sre_match c' s' ms else None
      | [] => None
      end
  | MAX_REPEAT_ONE min a :: c' =>
      let n := count a s in
      if n <? min then None
      else backtrack min (n - min) (fun k => sre_match c' (skipn k s) ms)
  | MARK i :: c' => sre_match c' s (set_mark i s ms)
  end.

(** A match object: the start pointer, the marks and the end pointer. *)
Record Match := { m_start : str; m_marks : marks; m_end : str }.

Fixpoint sre_search (c : code) (s : str) : option Match :=
  match sre_match c s [] with
  | Some (ms, e) => Some {| m_start := s; m_marks := ms; m_end := e |}
  | None =>
      match s with
      | [] => None
      | _ :: s' => sre_search c s'
      end
  end.

(** The text between two pointers. *)
Definition between (p q : str) : str := firstn (List.length p - List.length q) p.

(** [m.group(g)] for [g >= 1]; [None] when the group took no part. *)
Definition group (m : Match) (g : nat) : option str :=
  match get_mark (2 * g - 2) (m_marks m), get_mark (2 * g - 1) (m_marks m) with
  | Some p, Some q => Some (between p q)
  | _, _ => None
  end.

Definition group0 (m : Match) : str := between (m_start m) (m_end m).

End Sre.
Import Sre.

(** The pattern of the script, as written in its source. *)
Definition resolved_pattern : str :=
  u "Resolved:\s*(\d+)\s*/\s*(\d+)\s*(\d+\.\d+)%".

Definition resolved_code : code :=
  match sre_parse resolved_pattern 0 [] with Some c => c | None => [] end.

(** [re.search(pattern, content)] for the pattern above. *)
Definition re_search_resolved (content : str) : option Match :=
  sre_search resolved_code content.


(** ** Exceptions and results *)

Inductive exn :=
  | Exit (status : Z)      (* typer.Exit *)
  | ValueError
  | TypeError
  | KeyError
  | OverflowError
  | OSError
  | UnicodeDecodeError.    (* a subclass of ValueError *)

Inductive result (A : Type) :=
  | Ok (a : A)
  | Raise (e : exn).
Arguments Ok {A} a.
Arguments Raise {A} e.

Definition rbind {A B} (r : result A) (k : A -> result B) : result B :=
  match r with Ok a => k a | Raise e => Raise e end.

Declare Scope result_scope.
Delimit Scope result_scope with result.
Notation "'let?' x ':=' c 'in' k" := (rbind c (fun x => k))
  (at level 10, x name, c at level 100, k at level 200) : result_scope.

(** ** Numbers: [int], [float] and their text forms *)

Module PyNum.

(** The values of all characters of [s] as decimal digits, if they all
    are digits. *)
Fixpoint digit_values (s : str) : option (list Z) :=
  match s with
  | [] => Some []
  | c :: s' =>
      match Py_UNICODE_TODECIMAL c, digit_values s' with
      | Some d, Some ds => Some (d :: ds)
      | _, _ => None
      end
  end.

Definition of_digits (ds : list Z) : Z :=
  fold_left (fun acc d => 10 * acc + d)%Z ds 0%Z.

(** The interpreter refuses to convert between [int] and [str] more than
    [max_str_digits] digits when that setting is not zero
    ([sys.get_int_max_str_digits()], 4300 unless configured otherwise);
    the check is made only above 640 digits. *)
Definition MAX_STR_DIGITS_THRESHOLD : nat := 640.
Definition DEFAULT_MAX_STR_DIGITS : nat := 4300.

Definition exceeds_limit (max_str_digits digits : nat) : bool :=
  (MAX_STR_DIGITS_THRESHOLD <? digits)
  && (0 <? max_str_digits) && (max_str_digits <? digits).

(** [int(s)] for a text of decimal digits.  Signs, blanks and underscores
    are not needed for what the pattern captures; a text with any other
    character is reported as [ValueError]. *)
Definition py_int (max_str_digits : nat) (s : str) : result Z :=
  match s, digit_values s with
  | _ :: _, Some ds =>
      if exceeds_limit max_str_digits (List.length ds) then Raise ValueError
      else Ok (of_digits ds)
  | _, _ => Raise ValueError
  end.

Definition float := spec_float.
Definition prec : Z := 53.
Definition emax : Z := 1024.

(** The binary64 number nearest to [p / q] (ties to even), for [0 <= p]
    and [0 < q]; infinity beyond the largest finite number. *)
Definition float_of_ratio (p q : Z) : float :=
  if (p =? 0)%Z then S754_zero false
  else
    let '(m, e, l) := SFdiv_core_binary prec emax p 0 q 0 in
    binary_round_aux prec emax false m e l.

Fixpoint split_dot (s : str) : option (str * str) :=
  match s with
  | [] => None
  | c :: s' =>
      if (c =? 46)%N then Some ([], s')
      else match split_dot s' with
           | Some (i, f) => Some (c :: i, f)
           | None => None
           end
  end.

(** [float(s)] for a text [digits.digits]: the correctly rounded value of
    the decimal numeral.  Other forms (signs, exponents, [inf]) are not
    needed for what the pattern captures and are reported as
    [ValueError]. *)
Definition py_float (s : str) : result float :=
  match split_dot s with
  | Some (i, f) =>
      match i, f, digit_values i, digit_values f with
      | _ :: _, _ :: _, Some di, Some df =>
          Ok (float_of_ratio (of_digits (di ++ df)) (10 ^ Z.of_nat (List.length df)))
      | _, _, _, _ => Raise ValueError
      end
  | None => Raise ValueError
  end.

Definition digit_char (d : Z) : char := (48 + Z.to_N d)%N.

Fixpoint digits_fuel (fuel : nat) (z : Z) (acc : str) : str :=
  match fuel with
  | 0 => acc
  | S fuel' =>
      let acc' := digit_char (z mod 10) :: acc in
      if (z <? 10)%Z then acc' else digits_fuel fuel' (z / 10) acc'
  end.

(** The decimal digits of [z], for [0 <= z]. *)
Definition Z_digits (z : Z) : str :=
  digits_fuel (S (Z.to_nat (Z.log2 z))) z [].

(** [str(z)], [repr(z)] and [format(z, "")] of an [int]. *)
Definition int_str (max_str_digits : nat) (z : Z) : result str :=
  let ds := Z_digits (Z.abs z) in
  if exceeds_limit max_str_digits (List.length ds) then Raise ValueError
  else Ok (if (z <? 0)%Z then 45%N :: ds else ds).

Definition sign_str (s : bool) : str := if s then [45%N] else [].

(** The integer nearest to [n / d] (ties to even), for [0 <= n], [0 < d]. *)
Definition round_half_even (n d : Z) : Z :=
  let q := (n / d)%Z in
  let r := (n mod d)%Z in
  match (2 * r ?= d)%Z with
  | Lt => q
  | Gt => (q + 1)%Z
  | Eq => if Z.even q then q else (q + 1)%Z
  end.

(** The value [m * 2^e] as a fraction. *)
Definition ratio_of (m : positive) (e : Z) : Z * Z :=
  if (0 <=? e)%Z then (Zpos m * 2 ^ e, 1)%Z else (Zpos m, 2 ^ (- e))%Z.

(** [format(x, ".2f")]: the exact value rounded to two decimals. *)
Definition format_2f (x : float) : str :=
  match x with
  | S754_nan => u "nan"
  | S754_infinity s => sign_str s ++ u "inf"
  | S754_zero s => sign_str s ++ u "0.00"
  | S754_finite s m e =>
      let '(n, d) := ratio_of m e in
      let c := round_half_even (100 * n) d in
      sign_str s ++ Z_digits (c / 100) ++ [46%N]
        ++ [digit_char (c / 10 mod 10); digit_char (c mod 10)]
  end.

(** [v = n / d] compared with [10^j]. *)
Definition pow10_le (j n d : Z) : bool :=
  if (0 <=? j)%Z then (10 ^ j * d <=? n)%Z else (d <=? n * 10 ^ (- j))%Z.

Fixpoint log10_adjust (fuel : nat) (l n d : Z) : Z :=
  match fuel with
  | 0 => l
  | S fuel' => if pow10_le (l + 1) n d then log10_adjust fuel' (l + 1) n d else l
  end.

(** The integer [l] with [10^l <= n / d < 10^(l+1)], for [0 < n], [0 < d]. *)
Definition log10_floor (n d : Z) : Z :=
  log10_adjust 8 ((Z.log2 n - Z.log2 d - 1) * 30103 / 100000 - 2) n d.

(** [c * 10^p] as a binary64 number. *)
Definition float_of_decimal (c p : Z) : float :=
  if (0 <=? p)%Z then float_of_ratio (c * 10 ^ p) 1
  else float_of_ratio c (10 ^ (- p)).

Definition same_float (x y : float) : bool :=
  match x, y with
  | S754_finite s1 m1 e1, S754_finite s2 m2 e2 =>
      Bool.eqb s1 s2 && Pos.eqb m1 m2 && Z.eqb e1 e2
  | S754_zero s1, S754_zero s2 => Bool.eqb s1 s2
  | S754_infinity s1, S754_infinity s2 => Bool.eqb s1 s2
  | _, _ => false
  end.

(** With [k] significant digits: the decimal [c * 10^p] nearest to the
    value among those that read back as the same number, if there is one. *)
Definition shortest_at (m : positive) (e : Z) (k : Z) : option (Z * Z) :=
  let '(n, d) := ratio_of m e in
  let p := (log10_floor n d - (k - 1))%Z in
  let '(sn, sd) := if (0 <=? p)%Z then (n, d * 10 ^ p)%Z else (n * 10 ^ (- p), d)%Z in
  let lo := (sn / sd)%Z in
  let r := (sn mod sd)%Z in
  let x := S754_finite false m e in
  let lo_ok := same_float (float_of_decimal lo p) x in
  let hi_ok := same_float (float_of_decimal (lo + 1) p) x in
  if (r =? 0)%Z then Some (lo, p)
  else
    match lo_ok, hi_ok with
    | true, true =>
        match (2 * r ?= sd)%Z with
        | Lt => Some (lo, p)
        | Gt => Some (lo + 1, p)%Z
        | Eq => Some (if Z.even lo then lo else lo + 1, p)%Z
        end
    | true, false => Some (lo, p)
    | false, true => Some (lo + 1, p)%Z
    | false, false => None
    end.

Fixpoint shortest_from (fuel : nat) (m : positive) (e : Z) (k : Z) : Z * Z :=
  match fuel with
  | 0 => (Zpos m, e)
  | S fuel' =>
      match shortest_at m e k with
      | Some cp => cp
      | None => shortest_from fuel' m e (k + 1)
      end
  end.

Fixpoint strip_zeros (fuel : nat) (c p : Z) : Z * Z :=
  match fuel with
  | 0 => (c, p)
  | S fuel' =>
      if ((c mod 10 =? 0) && (0 <? c))%Z then strip_zeros fuel' (c / 10) (p + 1)
      else (c, p)
  end.

Definition exponent_str (x : Z) : str :=
  (if (x <? 0)%Z then [45%N] else [43%N])
    ++ (if (Z.abs x <? 10)%Z then [48%N] else []) ++ Z_digits (Z.abs x).

(** The digits [ds] with the decimal point after the first [decpt] of
    them, the way [repr] lays a float out. *)
Definition layout_repr (ds : str) (decpt : Z) : str :=
  if ((decpt <=? -4) || (16 <? decpt))%Z then
    match ds with
    | d1 :: rest =>
        [d1] ++ (match rest with [] => [] | _ => 46%N :: rest end)
          ++ [101%N] ++ exponent_str (decpt - 1)
    | [] => []
    end
  else if (decpt <=? 0)%Z then
    u "0." ++ repeat 48%N (Z.to_nat (- decpt)) ++ ds
  else if (Z.of_nat (List.length ds) <=? decpt)%Z then
    ds ++ repeat 48%N (Z.to_nat decpt - List.length ds) ++ u ".0"
  else
    firstn (Z.to_nat decpt) ds ++ [46%N] ++ skipn (Z.to_nat decpt) ds.

(** [repr(x)] and [str(x)] of a [float]: the shortest decimal that reads
    back as [x]. *)
Definition float_repr (x : float) : str :=
  match x with
  | S754_nan => u "nan"
  | S754_infinity s => sign_str s ++ u "inf"
  | S754_zero s => sign_str s ++ u "0.0"
  | S754_finite s m e =>
      let '(c0, p0) := shortest_from 17 m e 1 in
      let '(c, p) := strip_zeros 1100 c0 p0 in
      let ds := Z_digits c in
      sign_str s ++ layout_repr ds (Z.of_nat (List.length ds) + p)
  end.

End PyNum.
Import PyNum.


(** ** Dictionaries, in insertion order *)

Module PyDict.

Inductive value :=
  | PyInt (z : Z)
  | PyFloat (x : float).

Definition dict := list (str * value).

Fixpoint setitem (d : dict) (k : str) (v : value) : dict :=
  match d with
  | [] => [(k, v)]
  | (k', v') :: d' =>
      if str_eqb k' k then (k', v) :: d' else (k', v') :: setitem d' k v
  end.

Fixpoint get (d : dict) (k : str) : option value :=
  match d with
  | [] => None
  | (k', v') :: d' => if str_eqb k' k then Some v' else get d' k
  end.

(** [k in d] *)
Definition mem (k : str) (d : dict) : bool :=
  match get d k with Some _ => true | None => false end.

(** [d[k]] *)
Definition getitem (d : dict) (k : str) : result value :=
  match get d k with Some v => Ok v | None => Raise KeyError end.

(** The truth value of a dictionary. *)
Definition truthy (d : dict) : bool :=
  match d with [] => false | _ => true end.

End PyDict.
Import PyDict.

(** ** Formatting and JSON *)

Module PyFormat.

(** [format(v, "")], what an f-string field without a format does. *)
Definition format_plain (max_str_digits : nat) (v : value) : result str :=
  match v with
  | PyInt z => int_str max_str_digits z
  | PyFloat x => Ok (float_repr x)
  end.

(** [format(v, ".2f")]; an [int] is first converted to [float]. *)
Definition format_fixed2 (v : value) : result str :=
  match v with
  | PyFloat x => Ok (format_2f x)
  | PyInt z =>
      match float_of_ratio (Z.abs z) 1 with
      | S754_infinity _ => Raise OverflowError
      | S754_finite _ m e => Ok (format_2f (S754_finite (z <? 0)%Z m e))
      | x => Ok (format_2f x)
      end
  end.

Definition hex_digit (d : N) : char :=
  if (d <? 10)%N then (48 + d)%N else (87 + d)%N.

Definition u_escape (c : N) : str :=
  u "\u" ++ [hex_digit (c / 4096 mod 16); hex_digit (c / 256 mod 16);
             hex_digit (c / 16 mod 16); hex_digit (c mod 16)]%N.

Definition escape_ascii (c : char) : str :=
  if (c =? 34)%N then u "\" ++ [dquote]
  else if (c =? 92)%N then u "\\"
  else if (c =? 10)%N then u "\n"
  else if (c =? 13)%N then u "\r"
  else if (c =? 9)%N then u "\t"
  else if (c =? 12)%N then u "\f"
  else if (c =? 8)%N then u "\b"
  else if ((32 <=? c) && (c <? 127))%N then [c]
  else if (c <? 65536)%N then u_escape c
  else
    let v := (c - 65536)%N in
    u_escape (55296 + v / 1024 mod 1024) ++ u_escape (56320 + v mod 1024).

(** [json.encoder.py_encode_basestring_ascii] *)
Definition encode_basestring_ascii (s : str) : str :=
  [dquote] ++ flat_map escape_ascii s ++ [dquote].

Definition json_value (max_str_digits : nat) (v : value) : result str :=
  match v with
  | PyInt z => int_str max_str_digits z
  | PyFloat S754_nan => Ok (u "NaN")
  | PyFloat (S754_infinity s) => Ok (sign_str s ++ u "Infinity")
  | PyFloat x => Ok (float_repr x)
  end.

Definition json_item (max_str_digits : nat) (kv : str * value) : result str :=
  (let? v := json_value max_str_digits (snd kv) in
   Ok (encode_basestring_ascii (fst kv) ++ u ": " ++ v))%result.

Fixpoint json_items (max_str_digits : nat) (d : dict) : result (list str) :=
  match d with
  | [] => Ok []
  | kv :: d' =>
      (let? i := json_item max_str_digits kv in
       let? r := json_items max_str_digits d' in
       Ok (i :: r))%result
  end.

Fixpoint join (sep : str) (l : list str) : str :=
  match l with
  | [] => []
  | [x] => x
  | x :: l' => x ++ sep ++ join sep l'
  end.

(** [json.dumps(d, indent=2)] for a dictionary of numbers. *)
Definition json_dumps_indent2 (max_str_digits : nat) (d : dict) : result str :=
  match d with
  | [] => Ok (u "{}")
  | _ =>
      (let? items := json_items max_str_digits d in
       Ok (u "{" ++ nl ++ u "  " ++ join (u "," ++ nl ++ u "  ") items
             ++ nl ++ u "}"))%result
  end.

End PyFormat.
Import PyFormat.

(** ** Paths (POSIX flavour) and the file system *)

Module PyPath.

Record Path := { root : str; parts : list str }.

Fixpoint split_slash (s : str) (cur : str) : list str :=
  match s with
  | [] => [rev cur]
  | c :: s' =>
      if (c =? 47)%N then rev cur :: split_slash s' [] else split_slash s' (c :: cur)
  end.

Definition is_dot_or_empty (x : str) : bool :=
  match x with
  | [] => true
  | [c] => (c =? 46)%N
  | _ => false
  end.

(** The components of a path text: empty components and [.] are dropped. *)
Definition components (s : str) : list str :=
  filter (fun x => negb (is_dot_or_empty x)) (split_slash s []).

(** The root: two leading slashes are kept, any other number is one. *)
Definition root_of (s : str) : str :=
  match s with
  | a :: b :: c :: _ =>
      if (a =? 47)%N then
        if (b =? 47)%N && negb (c =? 47)%N then u "//" else u "/"
      else []
  | [a; b] =>
      if (a =? 47)%N then (if (b =? 47)%N then u "//" else u "/") else []
  | [a] => if (a =? 47)%N then u "/" else []
  | [] => []
  end.

(** [Path(s)] *)
Definition mkPath (s : str) : Path :=
  {| root := root_of s; parts := components s |}.

(** [p / s] *)
Definition div (p : Path) (s : str) : Path :=
  match root_of s with
  | [] => {| root := root p; parts := parts p ++ components s |}
  | _ => mkPath s
  end.

(** [str(p)] *)
Definition to_str (p : Path) : str :=
  match root p, parts p with
  | [], [] => u "."
  | r, ps => r ++ join (u "/") ps
  end.

(** What the system calls find at a path, when [stat] does not report the
    path absent:
    - [TextFile content]: a file whose bytes decode; [read_text] returns
      [content];
    - [NotText]: something that [stat] finds and [open] or [read] refuses
      with an [OSError] (a directory, a file without read permission);
    - [Undecodable]: a file whose bytes do not decode; [read_text] raises
      [UnicodeDecodeError];
    - [NameTooLong]: the path has a name longer than the file system
      allows, so nothing has this path and [stat] fails with ENAMETOOLONG;
    - [NoAccess]: a directory of the path may not be searched; [stat]
      fails with EACCES whatever is behind it. *)
Inductive node :=
  | TextFile (content : str)
  | NotText
  | Undecodable
  | NameTooLong
  | NoAccess.

(** A file system gives [None] for a path that [stat] reports absent
    (ENOENT, ENOTDIR, EBADF, ELOOP, or a path that cannot be encoded). *)
Definition filesystem := Path -> option node.

(** [os.stat(p)], as [Path.exists] looks at it: success, an error that
    [exists] takes for absence, or any other [OSError]. *)
Inductive stat_outcome := StatOk | StatIgnored | StatRaises.

Definition stat (fs : filesystem) (p : Path) : stat_outcome :=
  match fs p with
  | None => StatIgnored
  | Some NameTooLong | Some NoAccess => StatRaises
  | Some _ => StatOk
  end.




End PyPath.
Import PyPath.

(** ** Programs with effects

    The world a run acts on: the text written to standard output and the
    paths that [read_text] was asked to open (whether or not the file
    could then be read), both in order.  The file system is only read. *)

Record world := { stdout : str; opened : list Path }.

Definition IO (A : Type) := world -> result A * world.

Definition ret {A} (a : A) : IO A := fun w => (Ok a, w).

Definition bind {A B} (c : IO A) (k : A -> IO B) : IO B :=
  fun w =>
    match c w with
    | (Ok a, w') => k a w'
    | (Raise e, w') => (Raise e, w')
    end.

Definition raise {A} (e : exn) : IO A := fun w => (Raise e, w).

Definition lift {A} (r : result A) : IO A := fun w => (r, w).

(** [print(s)] *)
Definition print (s : str) : IO unit :=
  fun w => (Ok tt, {| stdout := stdout w ++ s ++ nl; opened := opened w |}).

(** [p.exists()]: [True] when [stat] succeeds, [False] when it fails with
    an error taken for absence; any other [OSError] is raised again. *)
Definition exists_ (fs : filesystem) (p : Path) : IO bool :=
  fun w =>
    match stat fs p with
    | StatOk => (Ok true, w)
    | StatIgnored => (Ok false, w)
    | StatRaises => (Raise OSError, w)
    end.

(** [p.read_text()] *)
Definition read_text (fs : filesystem) (p : Path) : IO str :=
  fun w =>
    let w' := {| stdout := stdout w; opened := opened w ++ [p] |} in
    match fs p with
    | Some (TextFile content) => (Ok content, w')
    | Some Undecodable => (Raise UnicodeDecodeError, w')
    | _ => (Raise OSError, w')
    end.

Declare Scope io_scope.
Delimit Scope io_scope with io.
Notation "'let!' x ':=' c 'in' k" := (bind c (fun x => k))
  (at level 10, x name, c at level 100, k at level 200) : io_scope.
Notation "'do!' c 'in' k" := (bind c (fun _ => k))
  (at level 10, c at level 100, k at level 200) : io_scope.

(** ** The script *)

Definition metrics_t := dict.

Definition group_or_TypeError (g : option str) : result str :=
  match g with Some t => Ok t | None => Raise TypeError end.

(** Lines 14 and 17 to 28 of [get_metrics_from_summary]: what it does with
    the text it has read.  A group that took no part in the match would be
    [None], which [int] and [float] refuse with [TypeError]. *)
Definition metrics_of_content (max_str_digits : nat) (content : str)
  : result metrics_t :=
  let metrics : metrics_t := [] in
  let resolved_match := re_search_resolved content in
  match resolved_match with
  | Some m =>
      (let? g1 := group_or_TypeError (group m 1) in
       let? v1 := py_int max_str_digits g1 in
       let metrics := setitem metrics (u "resolved_count") (PyInt v1) in
       let? g2 := group_or_TypeError (group m 2) in
       let? v2 := py_int max_str_digits g2 in
       let metrics := setitem metrics (u "resolved_total") (PyInt v2) in
       let? g3 := group_or_TypeError (group m 3) in
       let? v3 := py_float g3 in
       let metrics := setitem metrics (u "success_rate") (PyFloat v3) in
       Ok metrics)%result
  | None => Ok metrics
  end.

Definition get_metrics_from_summary (max_str_digits : nat) (fs : filesystem)
  (summary_path : Path) : IO metrics_t :=
  (let! content := read_text fs summary_path in
   lift (metrics_of_content max_str_digits content))%io.

Definition summary_path_of (experiment_dir : str) : Path :=
  div (div (mkPath experiment_dir) (u "artifacts")) (u "summary_stats.md").

Definition main (max_str_digits : nat) (fs : filesystem) (experiment_dir : str)
  : IO unit :=
  (let summary_path := summary_path_of experiment_dir in
   let! found := exists_ fs summary_path in
   if negb found then
     do! print (u "Error: Summary file not found at " ++ to_str summary_path) in
     raise (Exit 1)
   else
     let! metrics := get_metrics_from_summary max_str_digits fs summary_path in
     if negb (truthy metrics) then
       do! print (u "Error: Could not parse any metrics from "
                    ++ to_str summary_path) in
       raise (Exit 1)
     else
       do! print (u "SWE-bench Evaluation Results:") in
       do! (if mem (u "success_rate") metrics then
              let! rate := lift (rbind (getitem metrics (u "success_rate"))
                                   format_fixed2) in
              let! count := lift (rbind (getitem metrics (u "resolved_count"))
                                    (format_plain max_str_digits)) in
              let! total := lift (rbind (getitem metrics (u "resolved_total"))
                                    (format_plain max_str_digits)) in
              print (u "  Success Rate: " ++ rate ++ u "% (" ++ count ++ u "/"
                       ++ total ++ u ")")
            else ret tt) in
       do! print (nl ++ u "Metrics (JSON):") in
       let! json := lift (json_dumps_indent2 max_str_digits metrics) in
       print json)%io.

(** A run of the program from a fresh process.  [typer.Exit(n)] ends the
    process with status [n]; any other exception that escapes ends it with
    status 1; a normal return ends it with status 0. *)
Definition exit_status (r : result unit) : Z :=
  match r with
  | Ok _ => 0
  | Raise (Exit n) => n
  | Raise _ => 1
  end.

Record outcome := { output : str; status : Z; files_read : list Path }.

Definition run (max_str_digits : nat) (fs : filesystem) (experiment_dir : str)
  : outcome :=
  let '(r, w) := main max_str_digits fs experiment_dir
                   {| stdout := []; opened := [] |} in
  {| output := stdout w; status := exit_status r; files_read := opened w |}.

(** ** What the pattern means

    The declarative reading of the pattern, against which the matcher is
    compared. *)

Module PatternSpec.

(** [Run c s ms ms' e]: the code [c] can match a prefix of [s] that ends
    at the pointer [e], taking the marks from [ms] to [ms'].  This is what
    the pattern means, whatever the order in which the matcher explores
    the choices. *)
Inductive Run : code -> str -> marks -> marks -> str -> Prop :=
  | Run_nil s ms : Run [] s ms ms s
  | Run_at a x s c ms ms' e :
      atom_matches a x = true ->
      Run c s ms ms' e ->
      Run (AT a :: c) (x :: s) ms ms' e
  | Run_repeat min a taken s c ms ms' e :
      forallb (atom_matches a) taken = true ->
      min <= List.length taken ->
      Run c s ms ms' e ->
      Run (MAX_REPEAT_ONE min a :: c) (taken ++ s) ms ms' e
  | Run_mark i c s ms ms' e :
      Run c s (set_mark i s ms) ms' e ->
      Run (MARK i :: c) s ms ms' e.

(** Runs of whitespace (possibly empty) and numerals (at least one
    decimal digit). *)
Definition spaces (s : str) : Prop := forallb Py_UNICODE_ISSPACE s = true.

Definition digits (s : str) : Prop :=
  s <> [] /\ forallb Py_UNICODE_ISDECIMAL s = true.

(** A number with a fractional part: digits, a point, digits. *)
Definition decimal (z : str) : Prop :=
  exists i f, digits i /\ digits f /\ z = i ++ u "." ++ f.

(** The texts [Resolved: X / Y Z%] in the sense of the pattern: the three
    tokens, with any whitespace (or none) where the pattern has [\s*]. *)
Definition resolved_text (X Y Z : str) (t : str) : Prop :=
  exists ws1 ws2 ws3 ws4,
    spaces ws1 /\ spaces ws2 /\ spaces ws3 /\ spaces ws4 /\
    digits X /\ digits Y /\ decimal Z /\
    t = u "Resolved:" ++ ws1 ++ X ++ ws2 ++ u "/" ++ ws3 ++ Y ++ ws4 ++ Z ++ u "%".

Definition matches_pattern (t : str) : Prop :=
  exists X Y Z, resolved_text X Y Z t.

(** A match of the pattern starts at offset [j] of the text. *)
Definition match_at (text : str) (j : nat) : Prop :=
  j <= List.length text /\
  exists t rest, skipn j text = t ++ rest /\ matches_pattern t.

Definition no_match (text : str) : Prop := forall j, ~ match_at text j.

(** The mapping with the three entries, in the order the script inserts
    them. *)
Definition three_metrics (x y : Z) (z : float) : metrics_t :=
  [(u "resolved_count", PyInt x); (u "resolved_total", PyInt y);
   (u "success_rate", PyFloat z)].

(** The line [Resolved: X / Y Z%] as the report writes it, with single
    blanks. *)
Definition resolved_line (X Y Z : str) : str :=
  u "Resolved: " ++ X ++ u " / " ++ Y ++ u " " ++ Z ++ u "%".

Definition quoted (s : str) : str := [dquote] ++ s ++ [dquote].

(** A process that has written and read nothing yet. *)
Definition fresh : world := {| stdout := []; opened := [] |}.

End PatternSpec.
Import PatternSpec.

(** ** Checks that compute

    Boolean tests over texts and a way to write percentages, used to
    state and to test properties of the script. *)

Module Checks.



(** The percentage of [n] hundredths, written with two decimals. *)
Definition percent_token (n : Z) : str :=
  Z_digits (n / 100) ++ u "."
    ++ [digit_char (n / 10 mod 10); digit_char (n mod 10)].

(** Reading [percent_token n] with [float], the [.2f] form gives the same
    text back. *)
Definition percent_round_trips (n : Z) : bool :=
  match py_float (percent_token n) with
  | Ok z => str_eqb (format_2f z) (percent_token n)
  | Raise _ => false
  end.

(** [f z], [f (z + 1)], ..., for [count] consecutive integers. *)
Fixpoint holds_from (f : Z -> bool) (z : Z) (count : nat) : bool :=
  match count with
  | 0 => true
  | S count' => f z && holds_from f (Z.succ z) count'
  end.

(** A number that is neither negative nor NaN. *)
Definition nonnegative_float (z : float) : Prop :=
  match z with
  | S754_nan => False
  | S754_zero s | S754_infinity s | S754_finite s _ _ => s = false
  end.

(** The text [json.dumps] writes for a float. *)
Definition json_float (z : float) : str :=
  match z with
  | S754_nan => u "NaN"
  | S754_infinity s => sign_str s ++ u "Infinity"
  | _ => float_repr z
  end.

End Checks.
Import Checks.

(** * Properties *)

Unset Implicit Arguments.

(** ** The matcher against the language of the pattern *)

Module SreFacts.

Section Backtrack.
Context {R : Type}.
Implicit Types (f : nat -> option R).

Lemma backtrack_inv lo d f r :
  backtrack lo d f = Some r -> exists k, lo <= k <= lo + d /\ f k = Some r.
Proof.
  induction d as [|d IH]; simpl; intros H.
  - exists lo. split; [lia | exact H].
  - destruct (f (lo + S d)) eqn:E.
    + exists (lo + S d). split; [lia | congruence].
    + destruct (IH H) as (k & Hk & Hf). exists k. split; [lia | exact Hf].
Qed.

Lemma backtrack_first lo d f r :
  f (lo + d) = Some r -> backtrack lo d f = Some r.
Proof.
  destruct d as [|d]; simpl; intros H.
  - rewrite Nat.add_0_r in H. exact H.
  - rewrite H. reflexivity.
Qed.

Lemma backtrack_next lo d f :
  f (lo + S d) = None -> backtrack lo (S d) f = backtrack lo d f.
Proof. simpl. intros ->. reflexivity. Qed.

Lemma backtrack_some lo d f k :
  lo <= k <= lo + d -> f k <> None -> backtrack lo d f <> None.
Proof.
  induction d as [|d IH]; simpl; intros Hk Hf.
  - replace lo with k by lia. exact Hf.
  - destruct (f (lo + S d)) eqn:E; [discriminate|].
    apply IH; [|exact Hf].
    destruct (Nat.eq_dec k (lo + S d)) as [->|]; [congruence | lia].
Qed.

End Backtrack.

Lemma count_firstn a s k :
  k <= count a s ->
  forallb (atom_matches a) (firstn k s) = true /\ List.length (firstn k s) = k.
Proof.
  revert k. induction s as [|x s IH]; simpl; intros k Hk.
  - assert (k = 0) by lia. subst. split; reflexivity.
  - destruct k as [|k]; [split; reflexivity|].
    destruct (atom_matches a x) eqn:E; [|lia].
    destruct (IH k) as [H1 H2]; [lia|].
    simpl. rewrite E, H1, H2. split; reflexivity.
Qed.

Lemma count_app a taken s :
  forallb (atom_matches a) taken = true ->
  List.length taken <= count a (taken ++ s).
Proof.
  induction taken as [|x t IH]; simpl; intros H; [lia|].
  apply andb_true_iff in H as [Hx Ht]. rewrite Hx. specialize (IH Ht). lia.
Qed.

Lemma count_exact a taken s :
  forallb (atom_matches a) taken = true ->
  count a s = 0 ->
  count a (taken ++ s) = List.length taken.
Proof.
  induction taken as [|x t IH]; simpl; intros H H0; [exact H0|].
  apply andb_true_iff in H as [Hx Ht]. rewrite Hx, IH; auto.
Qed.

Lemma skipn_app_length {A} (l1 l2 : list A) :
  skipn (List.length l1) (l1 ++ l2) = l2.
Proof. induction l1; simpl; auto. Qed.

(** Whatever the matcher returns is a match of the code. *)
Theorem sre_match_sound c :
  forall s ms ms' e, sre_match c s ms = Some (ms', e) -> Run c s ms ms' e.
Proof.
  induction c as [|o c IH]; simpl; intros s ms ms' e H.
  - inversion H; subst. constructor.
  - destruct o as [a | min a | i].
    + destruct s as [|x s]; [discriminate|].
      destruct (atom_matches a x) eqn:E; [|discriminate].
      constructor; auto.
    + destruct (count a s <? min) eqn:E; [discriminate|].
      apply Nat.ltb_ge in E.
      apply backtrack_inv in H as (k & Hk & Hf).
      destruct (count_firstn a s k) as [H1 H2]; [lia|].
      rewrite <- (firstn_skipn k s). constructor; auto. lia.
    + constructor. auto.
Qed.

(** If the code has a match at all, the matcher finds one. *)
Theorem sre_match_complete c s ms ms' e :
  Run c s ms ms' e -> sre_match c s ms <> None.
Proof.
  induction 1 as [s ms | a x s c ms ms' e Hx _ IH
                 | min a taken s c ms ms' e Ht Hmin _ IH
                 | i c s ms ms' e _ IH]; simpl.
  - discriminate.
  - rewrite Hx. exact IH.
  - pose proof (count_app a taken s Ht) as Hc.
    destruct (count a (taken ++ s) <? min) eqn:E.
    + apply Nat.ltb_lt in E. lia.
    + apply backtrack_some with (k := List.length taken); [lia|].
      rewrite skipn_app_length. exact IH.
  - exact IH.
Qed.

(** The start pointer of a match is a suffix of the text searched, and no
    earlier suffix has a match. *)
Lemma sre_search_none c s :
  sre_search c s = None <->
  forall j, j <= List.length s -> sre_match c (skipn j s) [] = None.
Proof.
  induction s as [|x s IH]; simpl.
  - destruct (sre_match c [] []) as [[ms e]|] eqn:E.
    + split; [discriminate|]. intros H. specialize (H 0 (Nat.le_refl _)).
      simpl in H. congruence.
    + split; auto. intros _ j Hj. assert (j = 0) by lia. subst. exact E.
  - destruct (sre_match c (x :: s) []) as [[ms e]|] eqn:E.
    + split; [discriminate|]. intros H. specialize (H 0 (Nat.le_0_l _)).
      simpl in H. congruence.
    + rewrite IH. split; intros H j Hj.
      * destruct j as [|j]; simpl; [exact E | apply H; lia].
      * apply (H (S j)). lia.
Qed.

Lemma sre_search_skip c pre s :
  (forall j, j < List.length pre -> sre_match c (skipn j (pre ++ s)) [] = None) ->
  sre_search c (pre ++ s) = sre_search c s.
Proof.
  induction pre as [|x pre IH]; simpl; intros H; [reflexivity|].
  pose proof (H 0 ltac:(lia)) as H0. simpl in H0. rewrite H0.
  apply IH. intros j Hj. apply (H (S j)). lia.
Qed.

Lemma sre_search_some c s m :
  sre_search c s = Some m ->
  exists j, j <= List.length s /\ m_start m = skipn j s
    /\ sre_match c (skipn j s) [] = Some (m_marks m, m_end m)
    /\ forall i, i < j -> sre_match c (skipn i s) [] = None.
Proof.
  revert m. induction s as [|x s IH]; simpl; intros m H.
  - destruct (sre_match c [] []) as [[ms e]|] eqn:E; [|discriminate].
    inversion H; subst; simpl. exists 0. simpl. repeat split; auto. lia.
  - destruct (sre_match c (x :: s) []) as [[ms e]|] eqn:E.
    + inversion H; subst; simpl. exists 0. simpl. repeat split; auto; lia.
    + destruct (IH m H) as (j & Hj & Hs & Hm & Hn).
      exists (S j). simpl. repeat split; auto; [lia|].
      intros i Hi. destruct i as [|i]; simpl; [exact E | apply Hn; lia].
Qed.

Lemma between_app (a b : str) : between (a ++ b) b = a.
Proof.
  unfold between. rewrite length_app.
  replace (List.length a + List.length b - List.length b) with (List.length a) by lia.
  rewrite firstn_app, Nat.sub_diag, firstn_all. simpl. apply app_nil_r.
Qed.

End SreFacts.
Import SreFacts.

(** ** The pattern of the script *)

Lemma resolved_code_eq :
  resolved_code =
  [AT (LITERAL 82); AT (LITERAL 101); AT (LITERAL 115); AT (LITERAL 111);
   AT (LITERAL 108); AT (LITERAL 118); AT (LITERAL 101); AT (LITERAL 100);
   AT (LITERAL 58);
   MAX_REPEAT_ONE 0 (IN_CATEGORY CATEGORY_SPACE);
   MARK 0; MAX_REPEAT_ONE 1 (IN_CATEGORY CATEGORY_DIGIT); MARK 1;
   MAX_REPEAT_ONE 0 (IN_CATEGORY CATEGORY_SPACE);
   AT (LITERAL 47);
   MAX_REPEAT_ONE 0 (IN_CATEGORY CATEGORY_SPACE);
   MARK 2; MAX_REPEAT_ONE 1 (IN_CATEGORY CATEGORY_DIGIT); MARK 3;
   MAX_REPEAT_ONE 0 (IN_CATEGORY CATEGORY_SPACE);
   MARK 4; MAX_REPEAT_ONE 1 (IN_CATEGORY CATEGORY_DIGIT);
   AT (LITERAL 46); MAX_REPEAT_ONE 1 (IN_CATEGORY CATEGORY_DIGIT); MARK 5;
   AT (LITERAL 37)]%N.
Proof. reflexivity. Qed.

Lemma digits_of_taken taken :
  forallb (atom_matches (IN_CATEGORY CATEGORY_DIGIT)) taken = true ->
  1 <= List.length taken -> digits taken.
Proof.
  intros H Hl. split; [|exact H]. destruct taken; simpl in Hl; [lia | discriminate].
Qed.

Lemma literal_matches l x : atom_matches (LITERAL l) x = true -> x = l.
Proof. simpl. apply N.eqb_eq. Qed.

Lemma Run_lit_inv l c s ms ms' e :
  Run (AT (LITERAL l) :: c) s ms ms' e ->
  exists rest, s = l :: rest /\ Run c rest ms ms' e.
Proof.
  intros H. inversion H; subst.
  match goal with Hx : atom_matches _ _ = true |- _ => apply literal_matches in Hx; subst end.
  eexists; split; [reflexivity | assumption].
Qed.

Lemma Run_repeat_inv min a c s ms ms' e :
  Run (MAX_REPEAT_ONE min a :: c) s ms ms' e ->
  exists taken rest,
    s = taken ++ rest /\ forallb (atom_matches a) taken = true
    /\ min <= List.length taken /\ Run c rest ms ms' e.
Proof. intros H. inversion H; subst. eauto 8. Qed.

Lemma Run_mark_inv i c s ms ms' e :
  Run (MARK i :: c) s ms ms' e -> Run c s (set_mark i s ms) ms' e.
Proof. intros H. inversion H; subst. assumption. Qed.

Lemma Run_nil_inv s ms ms' e : Run [] s ms ms' e -> ms' = ms /\ e = s.
Proof. intros H. inversion H; subst. auto. Qed.

Ltac run_lit H := apply Run_lit_inv in H as (? & -> & H).

(** Every match of the code has the shape of the pattern, and its groups
    are the three tokens. *)
Lemma resolved_run_inv s ms e :
  Run resolved_code s [] ms e ->
  exists X Y Z t,
    resolved_text X Y Z t /\ s = t ++ e /\
    forall s0,
      group {| m_start := s0; m_marks := ms; m_end := e |} 1 = Some X /\
      group {| m_start := s0; m_marks := ms; m_end := e |} 2 = Some Y /\
      group {| m_start := s0; m_marks := ms; m_end := e |} 3 = Some Z.
Proof.
  rewrite resolved_code_eq. intros H.
  do 9 run_lit H.
  apply Run_repeat_inv in H as (ws1 & ? & -> & Hws1 & _ & H).
  apply Run_mark_inv in H.
  apply Run_repeat_inv in H as (X & ? & -> & HX & HX1 & H).
  apply Run_mark_inv in H.
  apply Run_repeat_inv in H as (ws2 & ? & -> & Hws2 & _ & H).
  run_lit H.
  apply Run_repeat_inv in H as (ws3 & ? & -> & Hws3 & _ & H).
  apply Run_mark_inv in H.
  apply Run_repeat_inv in H as (Y & ? & -> & HY & HY1 & H).
  apply Run_mark_inv in H.
  apply Run_repeat_inv in H as (ws4 & ? & -> & Hws4 & _ & H).
  apply Run_mark_inv in H.
  apply Run_repeat_inv in H as (I & ? & -> & HI & HI1 & H).
  run_lit H.
  apply Run_repeat_inv in H as (F & ? & -> & HF & HF1 & H).
  apply Run_mark_inv in H.
  run_lit H.
  apply Run_nil_inv in H as [-> <-].
  exists X, Y, (I ++ u "." ++ F),
    (u "Resolved:" ++ ws1 ++ X ++ ws2 ++ u "/" ++ ws3 ++ Y ++ ws4
       ++ (I ++ u "." ++ F) ++ u "%").
  split; [|split].
  - pose proof (digits_of_taken X HX HX1) as dX.
    pose proof (digits_of_taken Y HY HY1) as dY.
    pose proof (digits_of_taken I HI HI1) as dI.
    pose proof (digits_of_taken F HF HF1) as dF.
    exists ws1, ws2, ws3, ws4.
    repeat (split; [assumption|]).
    split; [exists I, F; auto | reflexivity].
  - simpl. repeat (rewrite <- ?app_assoc; simpl). reflexivity.
  - intros s0. unfold group; simpl. repeat split.
    + rewrite between_app. reflexivity.
    + rewrite between_app. reflexivity.
    + change (I ++ 46%N :: F ++ 37%N :: e) with (I ++ (46%N :: F) ++ 37%N :: e).
      rewrite app_assoc.
      rewrite between_app. reflexivity.
Qed.

Lemma digits_length s : digits s -> 1 <= List.length s.
Proof. intros [H _]. destruct s; simpl; [congruence | lia]. Qed.

(** Conversely, every text of that shape is a match of the code. *)
Lemma resolved_run_intro X Y Z t e :
  resolved_text X Y Z t -> exists ms, Run resolved_code (t ++ e) [] ms e.
Proof.
  intros (ws1 & ws2 & ws3 & ws4 & H1 & H2 & H3 & H4 & HX & HY & HZ & ->).
  destruct HZ as (I & F & HI & HF & ->).
  rewrite resolved_code_eq. eexists.
  repeat (rewrite <- ?app_assoc; simpl).
  do 9 (apply Run_at; [reflexivity|]).
  apply Run_repeat; [exact H1 | lia |]. apply Run_mark.
  apply Run_repeat; [exact (proj2 HX) | apply digits_length, HX |]. apply Run_mark.
  apply Run_repeat; [exact H2 | lia |].
  apply Run_at; [reflexivity|].
  apply Run_repeat; [exact H3 | lia |]. apply Run_mark.
  apply Run_repeat; [exact (proj2 HY) | apply digits_length, HY |]. apply Run_mark.
  apply Run_repeat; [exact H4 | lia |]. apply Run_mark.
  apply Run_repeat; [exact (proj2 HI) | apply digits_length, HI |].
  apply Run_at; [reflexivity|].
  apply Run_repeat; [exact (proj2 HF) | apply digits_length, HF |]. apply Run_mark.
  apply Run_at; [reflexivity|].
  apply Run_nil.
Qed.

(** The matcher succeeds at a position exactly when a text of the shape
    of the pattern starts there. *)
Lemma sre_match_resolved_iff s :
  sre_match resolved_code s [] <> None <->
  exists t rest, s = t ++ rest /\ matches_pattern t.
Proof.
  split.
  - destruct (sre_match resolved_code s []) as [[ms e]|] eqn:E; [|congruence].
    intros _. apply sre_match_sound, resolved_run_inv in E
      as (X & Y & Z & t & Ht & -> & _).
    exists t, e. split; [reflexivity | exists X, Y, Z; exact Ht].
  - intros (t & rest & -> & X & Y & Z & Ht).
    destruct (resolved_run_intro X Y Z t rest Ht) as [ms Hr].
    exact (sre_match_complete _ _ _ _ _ Hr).
Qed.

Lemma sre_match_resolved_none text j :
  j <= List.length text ->
  ~ match_at text j -> sre_match resolved_code (skipn j text) [] = None.
Proof.
  intros Hj Hn.
  destruct (sre_match resolved_code (skipn j text) []) eqn:E; [|reflexivity].
  exfalso. apply Hn. split; [exact Hj|].
  apply sre_match_resolved_iff. congruence.
Qed.

(** [re.search] finds nothing exactly when the text has no match. *)
Lemma re_search_none_iff text :
  re_search_resolved text = None <-> no_match text.
Proof.
  unfold re_search_resolved. rewrite sre_search_none. split.
  - intros H j [Hj Hm]. apply sre_match_resolved_iff in Hm.
    apply Hm, H, Hj.
  - intros H j Hj. apply sre_match_resolved_none; [exact Hj | apply H].
Qed.

(** Decimal digits, whitespace and the punctuation of the pattern are
    pairwise distinct. *)
Lemma space_in_list c : Py_UNICODE_ISSPACE c = true -> In c whitespace.
Proof.
  unfold Py_UNICODE_ISSPACE. intros H. apply existsb_exists in H as (w & Hw & E).
  apply N.eqb_eq in E. subst. exact Hw.
Qed.

Lemma space_not_digit c :
  Py_UNICODE_ISSPACE c = true -> Py_UNICODE_ISDECIMAL c = false.
Proof.
  intros H. apply space_in_list in H. unfold whitespace in H. simpl in H.
  repeat (destruct H as [<- | H]; [reflexivity|]). contradiction.
Qed.

Lemma digit_not_space c :
  Py_UNICODE_ISDECIMAL c = true -> Py_UNICODE_ISSPACE c = false.
Proof.
  intros H. destruct (Py_UNICODE_ISSPACE c) eqn:E; [|reflexivity].
  apply space_not_digit in E. congruence.
Qed.

(** ** What the matcher does on separated and on adjacent tokens *)

(** A greedy repeat whose run is followed by a character outside its
    class takes the whole run, if the rest of the code then matches. *)
Lemma sre_match_repeat_greedy min a c taken rest ms r :
  forallb (atom_matches a) taken = true ->
  count a rest = 0 ->
  min <= List.length taken ->
  sre_match c rest ms = Some r ->
  sre_match (MAX_REPEAT_ONE min a :: c) (taken ++ rest) ms = Some r.
Proof.
  intros Ht H0 Hmin Hr. simpl.
  rewrite (count_exact a taken rest Ht H0).
  destruct (List.length taken <? min) eqn:E; [apply Nat.ltb_lt in E; lia|].
  apply backtrack_first.
  replace (min + (List.length taken - min)) with (List.length taken) by lia.
  rewrite skipn_app_length. exact Hr.
Qed.

(** When the rest of the code fails after the whole run, the repeat gives
    one character back. *)
Lemma sre_match_repeat_give_back min a c taken x rest ms r :
  forallb (atom_matches a) (taken ++ [x]) = true ->
  count a rest = 0 ->
  min <= List.length taken ->
  sre_match c rest ms = None ->
  sre_match c (x :: rest) ms = Some r ->
  sre_match (MAX_REPEAT_ONE min a :: c) (taken ++ x :: rest) ms = Some r.
Proof.
  intros Ht H0 Hmin Hnone Hr. simpl.
  replace (taken ++ x :: rest) with ((taken ++ [x]) ++ rest)
    by (rewrite <- app_assoc; reflexivity).
  rewrite (count_exact a (taken ++ [x]) rest Ht H0).
  rewrite length_app; simpl.
  destruct (List.length taken + 1 <? min) eqn:E; [apply Nat.ltb_lt in E; lia|].
  replace (List.length taken + 1 - min) with (S (List.length taken - min)) by lia.
  rewrite backtrack_next.
  - apply backtrack_first.
    replace (min + (List.length taken - min)) with (List.length taken) by lia.
    rewrite <- app_assoc. rewrite skipn_app_length. exact Hr.
  - replace (min + S (List.length taken - min)) with (List.length (taken ++ [x]))
      by (rewrite length_app; simpl; lia).
    rewrite skipn_app_length. exact Hnone.
Qed.

Lemma count_space_before_digits X r :
  digits X -> count (IN_CATEGORY CATEGORY_SPACE) (X ++ r) = 0.
Proof.
  intros [Hne Hd]. destruct X as [|x X]; [congruence|]. simpl in *.
  apply andb_true_iff in Hd as [Hx _]. rewrite (digit_not_space x Hx). reflexivity.
Qed.

Lemma count_digit_before_spaces ws r :
  spaces ws -> count (IN_CATEGORY CATEGORY_DIGIT) r = 0 ->
  count (IN_CATEGORY CATEGORY_DIGIT) (ws ++ r) = 0.
Proof.
  intros Hs Hr. destruct ws as [|w ws]; [exact Hr|]. simpl in *.
  unfold spaces in Hs. simpl in Hs. apply andb_true_iff in Hs as [Hw _].
  rewrite (space_not_digit w Hw). reflexivity.
Qed.

Lemma count_digit_before_space ws r :
  spaces ws -> ws <> [] -> count (IN_CATEGORY CATEGORY_DIGIT) (ws ++ r) = 0.
Proof.
  intros Hs Hne. destruct ws as [|w ws]; [congruence|]. simpl in *.
  unfold spaces in Hs. simpl in Hs. apply andb_true_iff in Hs as [Hw _].
  rewrite (space_not_digit w Hw). reflexivity.
Qed.

(** The last group and the percent sign. *)
Lemma sre_match_tail I F e ms :
  digits I -> digits F ->
  sre_match
    [MARK 4; MAX_REPEAT_ONE 1 (IN_CATEGORY CATEGORY_DIGIT); AT (LITERAL 46%N);
     MAX_REPEAT_ONE 1 (IN_CATEGORY CATEGORY_DIGIT); MARK 5; AT (LITERAL 37%N)]
    (I ++ 46%N :: F ++ 37%N :: e) ms
  = Some (set_mark 5 (37%N :: e)
            (set_mark 4 (I ++ 46%N :: F ++ 37%N :: e) ms), e).
Proof.
  intros HI HF.
  change (sre_match (MARK 4 :: ?c) ?s ?m) with (sre_match c s (set_mark 4 s m)).
  apply sre_match_repeat_greedy;
    [exact (proj2 HI) | reflexivity | apply digits_length, HI |].
  change (sre_match (AT (LITERAL 46%N) :: ?c) (46%N :: ?s) ?m)
    with (sre_match c s m).
  apply sre_match_repeat_greedy;
    [exact (proj2 HF) | reflexivity | apply digits_length, HF |].
  reflexivity.
Qed.

Lemma sre_match_lit l c s ms :
  sre_match (AT (LITERAL l) :: c) (l :: s) ms = sre_match c s ms.
Proof. simpl. rewrite N.eqb_refl. reflexivity. Qed.

Lemma sre_match_mark i c s ms :
  sre_match (MARK i :: c) s ms = sre_match c s (set_mark i s ms).
Proof. reflexivity. Qed.

Lemma group_of_marks s0 ms e p0 p1 p2 p3 p4 p5 :
  ms = set_mark 5 p5 (set_mark 4 p4 (set_mark 3 p3 (set_mark 2 p2
         (set_mark 1 p1 (set_mark 0 p0 []))))) ->
  group {| m_start := s0; m_marks := ms; m_end := e |} 1 = Some (between p0 p1) /\
  group {| m_start := s0; m_marks := ms; m_end := e |} 2 = Some (between p2 p3) /\
  group {| m_start := s0; m_marks := ms; m_end := e |} 3 = Some (between p4 p5).
Proof. intros ->. repeat split. Qed.

(** Tokens that are separated the way the pattern allows, with at least
    one whitespace character between the total and the rate: the match
    ends after the percent sign and the groups are the three tokens. *)
Lemma sre_match_separated ws1 X ws2 ws3 Y ws4 I F e :
  spaces ws1 -> spaces ws2 -> spaces ws3 -> spaces ws4 -> ws4 <> [] ->
  digits X -> digits Y -> digits I -> digits F ->
  exists ms,
    sre_match resolved_code
      (u "Resolved:" ++ ws1 ++ X ++ ws2 ++ u "/" ++ ws3 ++ Y ++ ws4
         ++ (I ++ u "." ++ F) ++ u "%" ++ e) [] = Some (ms, e)
    /\ forall s0,
      group {| m_start := s0; m_marks := ms; m_end := e |} 1 = Some X /\
      group {| m_start := s0; m_marks := ms; m_end := e |} 2 = Some Y /\
      group {| m_start := s0; m_marks := ms; m_end := e |} 3 = Some (I ++ u "." ++ F).
Proof.
  intros H1 H2 H3 H4 Hne HX HY HI HF.
  rewrite resolved_code_eq.
  replace (u "Resolved:" ++ ws1 ++ X ++ ws2 ++ u "/" ++ ws3 ++ Y ++ ws4
             ++ (I ++ u "." ++ F) ++ u "%" ++ e)
    with (82 :: 101 :: 115 :: 111 :: 108 :: 118 :: 101 :: 100 :: 58
            :: ws1 ++ X ++ ws2 ++ 47 :: ws3 ++ Y ++ ws4
            ++ I ++ 46 :: F ++ 37 :: e)%N
    by (repeat (rewrite <- ?app_assoc; simpl); reflexivity).
  rewrite !sre_match_lit.
  eexists. split.
  - apply sre_match_repeat_greedy;
      [exact H1 | apply count_space_before_digits, HX | lia |].
    rewrite sre_match_mark.
    apply sre_match_repeat_greedy;
      [exact (proj2 HX) | apply count_digit_before_spaces; [exact H2 | reflexivity]
      | apply digits_length, HX |].
    rewrite sre_match_mark.
    apply sre_match_repeat_greedy; [exact H2 | reflexivity | lia |].
    rewrite sre_match_lit.
    apply sre_match_repeat_greedy;
      [exact H3 | apply count_space_before_digits, HY | lia |].
    rewrite sre_match_mark.
    apply sre_match_repeat_greedy;
      [exact (proj2 HY) | apply count_digit_before_space; assumption
      | apply digits_length, HY |].
    rewrite sre_match_mark.
    apply sre_match_repeat_greedy;
      [exact H4 | apply count_space_before_digits, HI | lia |].
    apply sre_match_tail; assumption.
  - intros s0.
    match goal with
    | |- context [ {| m_start := _; m_marks := ?ms; m_end := _ |} ] =>
        destruct (group_of_marks s0 ms e _ _ _ _ _ _ eq_refl) as (G1 & G2 & G3)
    end.
    rewrite G1, G2, G3, !between_app.
    change (I ++ 46%N :: F ++ 37%N :: e) with (I ++ (46%N :: F) ++ 37%N :: e).
    rewrite app_assoc, between_app. repeat split.
Qed.

(** Adjacent tokens: when the digits of the total run straight into the
    rate, the greedy total first takes every digit up to the point, the
    rate then has no digit left, and the total gives back exactly one. *)
Lemma sre_match_adjacent ws1 X ws2 ws3 D d F e :
  spaces ws1 -> spaces ws2 -> spaces ws3 ->
  digits X -> digits D -> Py_UNICODE_ISDECIMAL d = true -> digits F ->
  exists ms,
    sre_match resolved_code
      (u "Resolved:" ++ ws1 ++ X ++ ws2 ++ u "/" ++ ws3 ++ D ++ [d]
         ++ u "." ++ F ++ u "%" ++ e) [] = Some (ms, e)
    /\ forall s0,
      group {| m_start := s0; m_marks := ms; m_end := e |} 1 = Some X /\
      group {| m_start := s0; m_marks := ms; m_end := e |} 2 = Some D /\
      group {| m_start := s0; m_marks := ms; m_end := e |} 3 = Some ([d] ++ u "." ++ F).
Proof.
  intros H1 H2 H3 HX HD Hd HF.
  assert (Hd1 : digits [d]) by (split; [discriminate | simpl; rewrite Hd; reflexivity]).
  rewrite resolved_code_eq.
  replace (u "Resolved:" ++ ws1 ++ X ++ ws2 ++ u "/" ++ ws3 ++ D ++ [d]
             ++ u "." ++ F ++ u "%" ++ e)
    with (82 :: 101 :: 115 :: 111 :: 108 :: 118 :: 101 :: 100 :: 58
            :: ws1 ++ X ++ ws2 ++ 47 :: ws3 ++ D ++ d :: 46 :: F ++ 37 :: e)%N
    by (repeat (rewrite <- ?app_assoc; simpl); reflexivity).
  rewrite !sre_match_lit.
  eexists. split.
  - apply sre_match_repeat_greedy;
      [exact H1 | apply count_space_before_digits, HX | lia |].
    rewrite sre_match_mark.
    apply sre_match_repeat_greedy;
      [exact (proj2 HX) | apply count_digit_before_spaces; [exact H2 | reflexivity]
      | apply digits_length, HX |].
    rewrite sre_match_mark.
    apply sre_match_repeat_greedy; [exact H2 | reflexivity | lia |].
    rewrite sre_match_lit.
    apply sre_match_repeat_greedy;
      [exact H3 | apply count_space_before_digits, HD | lia |].
    rewrite sre_match_mark.
    apply sre_match_repeat_give_back.
    + rewrite forallb_app. apply andb_true_iff.
      split; [exact (proj2 HD) | exact (proj2 Hd1)].
    + reflexivity.
    + apply digits_length, HD.
    + reflexivity.
    + rewrite sre_match_mark.
      apply (sre_match_repeat_greedy 0 _ _ []);
        [reflexivity | apply (count_space_before_digits [d] _ Hd1) | simpl; lia |].
      apply (sre_match_tail [d]); assumption.
  - intros s0.
    match goal with
    | |- context [ {| m_start := _; m_marks := ?ms; m_end := _ |} ] =>
        destruct (group_of_marks s0 ms e _ _ _ _ _ _ eq_refl) as (G1 & G2 & G3)
    end.
    rewrite G1, G2, G3, !between_app.
    change ([d] ++ 46%N :: F ++ 37%N :: e) with (([d] ++ (46%N :: F)) ++ 37%N :: e).
    rewrite between_app. repeat split.
Qed.

(** ** Numbers *)

Lemma digit_values_digits s :
  forallb Py_UNICODE_ISDECIMAL s = true <->
  exists ds, digit_values s = Some ds.
Proof.
  induction s as [|c s IH]; simpl.
  - split; eauto.
  - unfold Py_UNICODE_ISDECIMAL at 1.
    destruct (Py_UNICODE_TODECIMAL c) as [d|]; simpl.
    + rewrite IH. split; intros [ds H].
      * rewrite H. eauto.
      * destruct (digit_values s); [eauto | discriminate].
    + split; [discriminate | intros [ds H]; discriminate].
Qed.

Lemma digit_values_length s ds :
  digit_values s = Some ds -> List.length ds = List.length s.
Proof.
  revert ds. induction s as [|c s IH]; simpl; intros ds H.
  - inversion H. reflexivity.
  - destruct (Py_UNICODE_TODECIMAL c); [|discriminate].
    destruct (digit_values s); [|discriminate].
    inversion H; subst. simpl. f_equal. apply IH. reflexivity.
Qed.

Lemma decimal_in_range zeros c d :
  decimal_in zeros c = Some d -> (0 <= d <= 9)%Z.
Proof.
  induction zeros as [|z zeros IH]; simpl; [discriminate|].
  destruct ((z <=? c)%N && (c <? z + 10)%N) eqn:E; [|exact IH].
  apply andb_true_iff in E as [E1 E2].
  apply N.leb_le in E1. apply N.ltb_lt in E2.
  intros H. inversion H; subst. lia.
Qed.

Lemma digit_values_range s ds :
  digit_values s = Some ds -> Forall (fun d => 0 <= d <= 9)%Z ds.
Proof.
  revert ds. induction s as [|c s IH]; simpl; intros ds H.
  - inversion H. constructor.
  - destruct (Py_UNICODE_TODECIMAL c) eqn:Ec; [|discriminate].
    destruct (digit_values s); [|discriminate].
    inversion H; subst. constructor; [|apply IH; reflexivity].
    exact (decimal_in_range _ _ _ Ec).
Qed.

(** [int] accepts exactly the numerals within the digit limit. *)
Lemma py_int_digits max_str_digits s :
  digits s ->
  exists ds, digit_values s = Some ds /\
    py_int max_str_digits s =
      if exceeds_limit max_str_digits (List.length s) then Raise ValueError
      else Ok (of_digits ds).
Proof.
  intros [Hne Hd]. apply digit_values_digits in Hd as [ds Hds].
  exists ds. split; [exact Hds|].
  rewrite <- (digit_values_length _ _ Hds).
  destruct s; [congruence|]. unfold py_int. rewrite Hds. reflexivity.
Qed.

Lemma py_int_inv max_str_digits s x :
  py_int max_str_digits s = Ok x ->
  digits s /\ exceeds_limit max_str_digits (List.length s) = false
  /\ exists ds, digit_values s = Some ds /\ x = of_digits ds.
Proof.
  unfold py_int. destruct s as [|c s]; [discriminate|].
  destruct (digit_values (c :: s)) as [ds|] eqn:E; [|discriminate].
  rewrite (digit_values_length _ _ E).
  destruct (exceeds_limit _ _) eqn:El; [discriminate|].
  intros H. inversion H; subst. split; [|split; [reflexivity | eauto]].
  split; [discriminate | apply digit_values_digits; eauto].
Qed.

Lemma split_dot_digits i r :
  forallb Py_UNICODE_ISDECIMAL i = true ->
  split_dot (i ++ 46%N :: r) = Some (i, r).
Proof.
  induction i as [|c i IH]; simpl; intros H; [reflexivity|].
  apply andb_true_iff in H as [Hc Hi].
  destruct (c =? 46)%N eqn:E.
  - apply N.eqb_eq in E. subst. discriminate.
  - rewrite (IH Hi). reflexivity.
Qed.

Lemma split_dot_inv s i f : split_dot s = Some (i, f) -> s = i ++ 46%N :: f.
Proof.
  revert i. induction s as [|c s IH]; simpl; intros i H; [discriminate|].
  destruct (c =? 46)%N eqn:E.
  - apply N.eqb_eq in E. inversion H; subst. reflexivity.
  - destruct (split_dot s) as [[i' f']|]; [|discriminate].
    inversion H; subst. simpl. f_equal. apply IH. reflexivity.
Qed.

(** [float] accepts every numeral with a fractional part. *)
Lemma py_float_decimal i f :
  digits i -> digits f ->
  exists di df, digit_values i = Some di /\ digit_values f = Some df /\
    py_float (i ++ u "." ++ f) =
      Ok (float_of_ratio (of_digits (di ++ df)) (10 ^ Z.of_nat (List.length df))).
Proof.
  intros [Hi Hdi] [Hf Hdf].
  pose proof Hdi as Hdi'. pose proof Hdf as Hdf'.
  apply digit_values_digits in Hdi as [di Hdi], Hdf as [df Hdf].
  exists di, df. repeat split; auto.
  unfold py_float. change (i ++ u "." ++ f) with (i ++ 46%N :: f).
  rewrite (split_dot_digits _ _ Hdi').
  destruct i; [congruence|]. destruct f; [congruence|].
  rewrite Hdi, Hdf. reflexivity.
Qed.

Lemma py_float_inv s z : py_float s = Ok z -> decimal s.
Proof.
  unfold py_float. destruct (split_dot s) as [[i f]|] eqn:E; [|discriminate].
  apply split_dot_inv in E. subst.
  destruct i as [|a i]; [discriminate|]. destruct f as [|b f]; [discriminate|].
  destruct (digit_values (a :: i)) eqn:Ei; [|discriminate].
  destruct (digit_values (b :: f)) eqn:Ef; [|discriminate].
  intros _. exists (a :: i), (b :: f). repeat split; try discriminate.
  - apply digit_values_digits. eauto.
  - apply digit_values_digits. eauto.
Qed.

(** The value of [n] digits is below [10^n]. *)
Lemma of_digits_bound ds :
  Forall (fun d => 0 <= d <= 9)%Z ds ->
  (0 <= of_digits ds < 10 ^ Z.of_nat (List.length ds))%Z.
Proof.
  unfold of_digits.
  assert (G : forall ds acc n,
             Forall (fun d => 0 <= d <= 9)%Z ds ->
             (0 <= acc < 10 ^ Z.of_nat n)%Z ->
             (0 <= fold_left (fun a d => 10 * a + d) ds acc
              < 10 ^ Z.of_nat (n + List.length ds))%Z).
  { clear ds. induction ds as [|d ds IH]; intros acc n Hf Ha.
    - simpl. rewrite Nat.add_0_r. exact Ha.
    - inversion Hf; subst. cbn [fold_left List.length].
      replace (n + S (List.length ds)) with (S n + List.length ds) by lia.
      apply IH; [assumption|].
      rewrite Nat2Z.inj_succ, Z.pow_succ_r by lia. lia. }
  intros Hf. apply (G ds 0%Z 0 Hf). simpl. lia.
Qed.

Lemma digits_fuel_length fuel z acc n :
  (0 <= z < 10 ^ Z.of_nat n)%Z -> 1 <= n ->
  List.length (digits_fuel fuel z acc) <= n + List.length acc.
Proof.
  revert z acc n. induction fuel as [|fuel IH]; simpl; intros z acc n Hz Hn; [lia|].
  destruct (z <? 10)%Z eqn:E; simpl; [lia|].
  apply Z.ltb_ge in E.
  destruct n as [|[|n]]; [lia | simpl in Hz; lia |].
  specialize (IH (z / 10)%Z (digit_char (z mod 10) :: acc) (S n)).
  simpl List.length in IH.
  assert (0 <= z / 10 < 10 ^ Z.of_nat (S n))%Z.
  { rewrite (Nat2Z.inj_succ (S n)), Z.pow_succ_r in Hz by lia.
    split; [apply Z.div_pos; lia | apply Z.div_lt_upper_bound; lia]. }
  specialize (IH H ltac:(lia)). lia.
Qed.

Lemma exceeds_limit_mono max_str_digits n m :
  n <= m -> exceeds_limit max_str_digits m = false ->
  exceeds_limit max_str_digits n = false.
Proof.
  unfold exceeds_limit, MAX_STR_DIGITS_THRESHOLD. intros Hnm H.
  apply andb_false_iff in H as [H | H]; [apply andb_false_iff in H as [H | H]|].
  - apply Nat.ltb_ge in H.
    replace (640 <? n) with false by (symmetry; apply Nat.ltb_ge; lia).
    reflexivity.
  - rewrite H. apply andb_false_iff. left. apply andb_false_r.
  - apply Nat.ltb_ge in H.
    replace (max_str_digits <? n) with false by (symmetry; apply Nat.ltb_ge; lia).
    apply andb_false_r.
Qed.

(** An integer that [int] has read can be written back. *)
Lemma int_str_of_py_int max_str_digits s x :
  py_int max_str_digits s = Ok x ->
  int_str max_str_digits x = Ok (Z_digits x).
Proof.
  intros H. apply py_int_inv in H as (Hd & Hl & ds & Hds & ->).
  pose proof (of_digits_bound ds (digit_values_range _ _ Hds)) as Hb.
  rewrite (digit_values_length _ _ Hds) in Hb.
  unfold int_str. rewrite Z.abs_eq by lia.
  assert (Hlen : List.length (Z_digits (of_digits ds)) <= List.length s).
  { unfold Z_digits.
    pose proof (digits_fuel_length (S (Z.to_nat (Z.log2 (of_digits ds))))
                  (of_digits ds) [] (List.length s) Hb (digits_length s Hd)).
    rewrite Nat.add_0_r in H. exact H. }
  rewrite (exceeds_limit_mono _ _ _ Hlen Hl).
  destruct (of_digits ds <? 0)%Z eqn:E; [apply Z.ltb_lt in E; lia | reflexivity].
Qed.

Lemma todecimal_digit_char d :
  (0 <= d <= 9)%Z -> Py_UNICODE_TODECIMAL (digit_char d) = Some d.
Proof.
  intros H.
  assert (d = 0 \/ d = 1 \/ d = 2 \/ d = 3 \/ d = 4 \/ d = 5 \/ d = 6
          \/ d = 7 \/ d = 8 \/ d = 9)%Z as E by lia.
  repeat (destruct E as [-> | E]; [reflexivity|]). subst. reflexivity.
Qed.

Lemma digits_fuel_value fuel :
  forall z acc da,
    (0 <= z < 10 ^ Z.of_nat fuel)%Z ->
    digit_values acc = Some da ->
    exists dz,
      digit_values (digits_fuel fuel z acc) = Some (dz ++ da)
      /\ of_digits dz = z.
Proof.
  induction fuel as [|fuel IH]; intros z acc da Hz Ha.
  - exists []. simpl in *. split; [exact Ha | unfold of_digits; simpl; lia].
  - cbn [digits_fuel].
    assert (Hm : (0 <= z mod 10 <= 9)%Z)
      by (pose proof (Z.mod_pos_bound z 10); lia).
    assert (Ha' : digit_values (digit_char (z mod 10) :: acc)
                  = Some (z mod 10 :: da)%Z).
    { cbn [digit_values]. rewrite (todecimal_digit_char _ Hm), Ha. reflexivity. }
    destruct (z <? 10)%Z eqn:E.
    + apply Z.ltb_lt in E. exists [z]. split.
      * rewrite Ha'. rewrite Z.mod_small by lia. reflexivity.
      * unfold of_digits. simpl. lia.
    + apply Z.ltb_ge in E.
      assert (Hq : (0 <= z / 10 < 10 ^ Z.of_nat fuel)%Z).
      { rewrite Nat2Z.inj_succ, Z.pow_succ_r in Hz by lia.
        split; [apply Z.div_pos; lia | apply Z.div_lt_upper_bound; lia]. }
      destruct (IH (z / 10)%Z _ _ Hq Ha') as (dz & Hd & Hv).
      exists (dz ++ [z mod 10]%Z). split.
      * rewrite Hd, <- app_assoc. reflexivity.
      * unfold of_digits in *. rewrite fold_left_app, Hv. cbn [fold_left].
        pose proof (Z.div_mod z 10). lia.
Qed.

(** What [str] writes for a non-negative integer, [int] reads back. *)
Lemma py_int_Z_digits z : (0 <= z)%Z -> py_int 0 (Z_digits z) = Ok z.
Proof.
  intros Hz. unfold Z_digits.
  destruct (digits_fuel_value (S (Z.to_nat (Z.log2 z))) z [] [])
    as (dz & Hd & Hv); [|reflexivity|].
  - split; [exact Hz|].
    destruct (Z.eq_dec z 0) as [->|Hne]; [simpl; lia|].
    pose proof (Z.log2_spec z ltac:(lia)) as [_ Hlt].
    pose proof (Z.log2_nonneg z) as Hl.
    rewrite Nat2Z.inj_succ, Z2Nat.id by lia.
    eapply Z.lt_le_trans; [exact Hlt|].
    apply Z.pow_le_mono_l. lia.
  - rewrite app_nil_r in Hd.
    remember (digits_fuel (S (Z.to_nat (Z.log2 z))) z []) as t eqn:Et.
    destruct t as [|c t].
    + simpl in Hd. injection Hd as <-. unfold of_digits in Hv. simpl in Hv.
      subst z. discriminate Et.
    + unfold py_int. rewrite Hd. unfold exceeds_limit.
      cbn [Nat.ltb Nat.leb]. rewrite andb_false_r. cbn [andb].
      rewrite Hv. reflexivity.
Qed.

(** ** The extractor *)

(** What [re.search] returns is the leftmost match; its groups are the
    three tokens of a text of the shape of the pattern. *)
Lemma re_search_some content m :
  re_search_resolved content = Some m ->
  exists j X Y Z t,
    j <= List.length content /\
    (forall i, i < j -> ~ match_at content i) /\
    skipn j content = t ++ m_end m /\ resolved_text X Y Z t /\
    group m 1 = Some X /\ group m 2 = Some Y /\ group m 3 = Some Z.
Proof.
  intros H. apply sre_search_some in H as (j & Hj & Hs & Hm & Hn).
  apply sre_match_sound, resolved_run_inv in Hm as (X & Y & Z & t & Ht & E & G).
  exists j, X, Y, Z, t. split; [exact Hj|]. split; [|split; [exact E|split; [exact Ht|]]].
  - intros i Hi [_ Hc]. apply sre_match_resolved_iff in Hc.
    apply Hc, Hn, Hi.
  - specialize (G (m_start m)). destruct m; exact G.
Qed.

Lemma metrics_of_content_none max_str_digits content :
  re_search_resolved content = None ->
  metrics_of_content max_str_digits content = Ok [].
Proof. unfold metrics_of_content. intros ->. reflexivity. Qed.

Lemma metrics_of_content_some max_str_digits content m X Y Z :
  re_search_resolved content = Some m ->
  group m 1 = Some X -> group m 2 = Some Y -> group m 3 = Some Z ->
  metrics_of_content max_str_digits content =
    (let? x := py_int max_str_digits X in
     let? y := py_int max_str_digits Y in
     let? z := py_float Z in
     Ok (three_metrics x y z))%result.
Proof.
  unfold metrics_of_content. intros -> -> -> ->. simpl.
  destruct (py_int max_str_digits X); [|reflexivity]. simpl.
  destruct (py_int max_str_digits Y); [|reflexivity]. simpl.
  destruct (py_float Z); reflexivity.
Qed.

(** The extractor, case by case: nothing found, or the three entries of
    the leftmost match, which [int] may refuse for their length. *)
Lemma metrics_of_content_cases max_str_digits content :
  (no_match content /\ metrics_of_content max_str_digits content = Ok [])
  \/ exists X Y Z t z,
       resolved_text X Y Z t /\ contains t content /\ py_float Z = Ok z /\
       metrics_of_content max_str_digits content =
         (let? x := py_int max_str_digits X in
          let? y := py_int max_str_digits Y in
          Ok (three_metrics x y z))%result.
Proof.
  destruct (re_search_resolved content) as [m|] eqn:E.
  - right. destruct (re_search_some content m E)
      as (j & X & Y & Z & t & _ & _ & Hs & Ht & G1 & G2 & G3).
    pose proof Ht as (ws1 & ws2 & ws3 & ws4 & _ & _ & _ & _ & HX & HY & HZ & _).
    destruct HZ as (I & F & HI & HF & ->).
    destruct (py_float_decimal I F HI HF) as (di & df & _ & _ & Hz).
    exists X, Y, (I ++ u "." ++ F), t. eexists.
    split; [exact Ht|]. split; [|split; [exact Hz|]].
    + exists (firstn j content), (m_end m).
      rewrite <- Hs. symmetry. apply firstn_skipn.
    + rewrite (metrics_of_content_some _ _ _ _ _ _ E G1 G2 G3), Hz.
      destruct (py_int max_str_digits X); [|reflexivity].
      destruct (py_int max_str_digits Y); reflexivity.
  - left. split; [apply re_search_none_iff, E | apply metrics_of_content_none, E].
Qed.

Lemma py_int_raises max_str_digits X e :
  digits X -> py_int max_str_digits X = Raise e ->
  e = ValueError /\ 0 < max_str_digits < List.length X.
Proof.
  intros HX H. destruct (py_int_digits max_str_digits X HX) as (ds & _ & E).
  rewrite E in H. unfold exceeds_limit in H.
  destruct (MAX_STR_DIGITS_THRESHOLD <? List.length X); simpl in H; [|discriminate].
  destruct (0 <? max_str_digits) eqn:E0; simpl in H; [|discriminate].
  destruct (max_str_digits <? List.length X) eqn:E1; [|discriminate].
  apply Nat.ltb_lt in E0, E1. inversion H. split; [reflexivity | lia].
Qed.

Lemma match_at_refute text j :
  sre_match resolved_code (skipn j text) [] = None -> ~ match_at text j.
Proof. intros H [_ Hm]. apply sre_match_resolved_iff in Hm. apply Hm, H. Qed.

Lemma no_match_refute text :
  re_search_resolved text = None -> no_match text.
Proof. apply re_search_none_iff. Qed.

(** ** The orchestrator *)

Lemma sre_search_unfold c s :
  sre_search c s =
  match sre_match c s [] with
  | Some (ms, e) => Some {| m_start := s; m_marks := ms; m_end := e |}
  | None => match s with [] => None | _ :: s' => sre_search c s' end
  end.
Proof. destruct s; reflexivity. Qed.

Lemma json_three max_str_digits x y z sx sy :
  int_str max_str_digits x = Ok sx ->
  int_str max_str_digits y = Ok sy ->
  exists json, json_dumps_indent2 max_str_digits (three_metrics x y z) = Ok json.
Proof.
  intros Hx Hy. unfold json_dumps_indent2, three_metrics, json_items, json_item.
  cbn [fst snd json_value rbind]. rewrite Hx, Hy. cbn [rbind].
  destruct z; cbn [rbind]; eexists; reflexivity.
Qed.

(** The success path, on any world: the three prints in order. *)
Lemma main_success max_str_digits fs experiment_dir content x y z sx sy json w :
  fs (summary_path_of experiment_dir) = Some (TextFile content) ->
  metrics_of_content max_str_digits content = Ok (three_metrics x y z) ->
  int_str max_str_digits x = Ok sx ->
  int_str max_str_digits y = Ok sy ->
  json_dumps_indent2 max_str_digits (three_metrics x y z) = Ok json ->
  main max_str_digits fs experiment_dir w =
    (Ok tt,
     {| stdout :=
          (((stdout w ++ u "SWE-bench Evaluation Results:" ++ nl)
              ++ (u "  Success Rate: " ++ format_2f z ++ u "% (" ++ sx ++ u "/"
                    ++ sy ++ u ")") ++ nl)
             ++ (nl ++ u "Metrics (JSON):") ++ nl)
            ++ json ++ nl;
        opened := opened w ++ [summary_path_of experiment_dir] |}).
Proof.
  intros Hfs Hm Hx Hy Hj.
  unfold main, get_metrics_from_summary, read_text, exists_, stat, bind, lift, print.
  cbv zeta. rewrite Hfs. cbn [negb stdout opened]. rewrite Hm.
  change (truthy (three_metrics x y z)) with true.
  change (mem (u "success_rate") (three_metrics x y z)) with true.
  change (getitem (three_metrics x y z) (u "success_rate")) with (Ok (PyFloat z)).
  change (getitem (three_metrics x y z) (u "resolved_count")) with (Ok (PyInt x)).
  change (getitem (three_metrics x y z) (u "resolved_total")) with (Ok (PyInt y)).
  cbn [negb rbind format_fixed2 format_plain stdout opened].
  rewrite Hx, Hy, Hj. reflexivity.
Qed.

(** * The properties of the script *)

Lemma get_metrics_of_text max_str_digits fs p w content :
  fs p = Some (TextFile content) ->
  fst (get_metrics_from_summary max_str_digits fs p w) =
  metrics_of_content max_str_digits content.
Proof.
  intros H. unfold get_metrics_from_summary, read_text, bind, lift.
  rewrite H. reflexivity.
Qed.

(** The extractor on a text whose leftmost match has separated tokens. *)
Lemma metrics_of_separated max_str_digits pre ws1 X ws2 ws3 Y ws4 R post x y z :
  spaces ws1 -> spaces ws2 -> spaces ws3 -> spaces ws4 -> ws4 <> [] ->
  py_int max_str_digits X = Ok x ->
  py_int max_str_digits Y = Ok y ->
  py_float R = Ok z ->
  (forall j, j < List.length pre ->
     ~ match_at (pre ++ u "Resolved:" ++ ws1 ++ X ++ ws2 ++ u "/" ++ ws3 ++ Y
                   ++ ws4 ++ R ++ u "%" ++ post) j) ->
  metrics_of_content max_str_digits
    (pre ++ u "Resolved:" ++ ws1 ++ X ++ ws2 ++ u "/" ++ ws3 ++ Y ++ ws4
       ++ R ++ u "%" ++ post)
  = Ok (three_metrics x y z).
Proof.
  intros H1 H2 H3 H4 Hne HX HY HZ Hfirst.
  pose proof (py_int_inv _ _ _ HX) as (dX & _ & _).
  pose proof (py_int_inv _ _ _ HY) as (dY & _ & _).
  pose proof (py_float_inv _ _ HZ) as (I & F & dI & dF & ->).
  destruct (sre_match_separated ws1 X ws2 ws3 Y ws4 I F post
              H1 H2 H3 H4 Hne dX dY dI dF) as (ms & Hm & G).
  match type of Hm with
  | sre_match _ ?t _ = _ =>
      assert (Hs : re_search_resolved (pre ++ t)
                   = Some {| m_start := t; m_marks := ms; m_end := post |});
      [|destruct (G t) as (G1 & G2 & G3)]
  end.
  { unfold re_search_resolved. rewrite sre_search_skip.
    - rewrite sre_search_unfold, Hm. reflexivity.
    - intros j Hj. apply sre_match_resolved_none; [|apply Hfirst, Hj].
      rewrite length_app. lia. }
  rewrite (metrics_of_content_some _ _ _ _ _ _ Hs G1 G2 G3), HX, HY, HZ.
  reflexivity.
Qed.

(** The extractor on a text whose leftmost match has the total and the
    rate adjacent: the total is every digit but the last one before the
    point, the rate starts at that last digit. *)
Lemma metrics_of_adjacent max_str_digits pre ws1 X ws2 ws3 D d F post x y z :
  spaces ws1 -> spaces ws2 -> spaces ws3 ->
  py_int max_str_digits X = Ok x ->
  py_int max_str_digits D = Ok y ->
  py_float ([d] ++ u "." ++ F) = Ok z ->
  (forall j, j < List.length pre ->
     ~ match_at (pre ++ u "Resolved:" ++ ws1 ++ X ++ ws2 ++ u "/" ++ ws3 ++ D
                   ++ [d] ++ u "." ++ F ++ u "%" ++ post) j) ->
  metrics_of_content max_str_digits
    (pre ++ u "Resolved:" ++ ws1 ++ X ++ ws2 ++ u "/" ++ ws3 ++ D
       ++ [d] ++ u "." ++ F ++ u "%" ++ post)
  = Ok (three_metrics x y z).
Proof.
  intros H1 H2 H3 HX HY HZ Hfirst.
  pose proof (py_int_inv _ _ _ HX) as (dX & _ & _).
  pose proof (py_int_inv _ _ _ HY) as (dD & _ & _).
  pose proof (py_float_inv _ _ HZ) as (I & F' & dI & dF & E).
  assert (Hd : Py_UNICODE_ISDECIMAL d = true /\ digits F).
  { destruct dI as [Ine dI]. destruct I as [|i I]; [congruence|].
    change ([d] ++ u "." ++ F) with (d :: 46%N :: F) in E.
    change ((i :: I) ++ u "." ++ F') with (i :: I ++ 46%N :: F') in E.
    injection E as E1 E2. subst i.
    cbn [forallb] in dI. apply andb_true_iff in dI as [Hi HI].
    split; [exact Hi|].
    destruct I as [|i' I].
    - simpl in E2. injection E2 as E2. subst. exact dF.
    - simpl in E2. injection E2 as E2 E3. subst i'.
      cbn [forallb] in HI. apply andb_true_iff in HI as [Hbad _].
      vm_compute in Hbad. discriminate. }
  destruct Hd as [Hd dF'].
  destruct (sre_match_adjacent ws1 X ws2 ws3 D d F post
              H1 H2 H3 dX dD Hd dF') as (ms & Hm & G).
  match type of Hm with
  | sre_match _ ?t _ = _ =>
      assert (Hs : re_search_resolved (pre ++ t)
                   = Some {| m_start := t; m_marks := ms; m_end := post |});
      [|destruct (G t) as (G1 & G2 & G3)]
  end.
  { unfold re_search_resolved. rewrite sre_search_skip.
    - rewrite sre_search_unfold, Hm. reflexivity.
    - intros j Hj. apply sre_match_resolved_none; [|apply Hfirst, Hj].
      rewrite length_app. lia. }
  rewrite (metrics_of_content_some _ _ _ _ _ _ Hs G1 G2 G3), HX, HY, HZ.
  reflexivity.
Qed.

(** C1. When the file text contains a line [Resolved: X / Y R%], with X
    and Y decimal integers (of values x and y) and R a number with a
    fractional part (of value z), and no match of the pattern starts
    before that line, [get_metrics_from_summary] returns the mapping with
    resolved_count = x, resolved_total = y and success_rate = z: the
    entries come from the first match only, whatever follows it. *)
Theorem C1_first_line_extracted
  (max_str_digits : nat) (fs : filesystem) (summary_path : Path) (w : world)
  (pre X Y R post : str) (x y : Z) (z : float) :
  py_int max_str_digits X = Ok x ->
  py_int max_str_digits Y = Ok y ->
  py_float R = Ok z ->
  (forall j, j < List.length pre ->
             ~ match_at (pre ++ resolved_line X Y R ++ post) j) ->
  fs summary_path = Some (TextFile (pre ++ resolved_line X Y R ++ post)) ->
  fst (get_metrics_from_summary max_str_digits fs summary_path w)
  = Ok (three_metrics x y z).
Proof.
  intros HX HY HZ Hfirst Hfs.
  rewrite (get_metrics_of_text _ _ _ _ _ Hfs).
  assert (Hsp : spaces [32%N]) by reflexivity.
  assert (E : resolved_line X Y R ++ post =
              u "Resolved:" ++ [32%N] ++ X ++ [32%N] ++ u "/" ++ [32%N] ++ Y
                ++ [32%N] ++ R ++ u "%" ++ post)
    by (unfold resolved_line; repeat (rewrite <- ?app_assoc; simpl); reflexivity).
  rewrite E in *.
  apply metrics_of_separated; auto. discriminate.
Qed.

Lemma C1_first_line_extracted_witness :
  fst (get_metrics_from_summary 4300
         (fun _ => Some (TextFile (u "Run summary" ++ nl
                                     ++ resolved_line (u "10") (u "20") (u "50.00")
                                     ++ nl ++ u "Resolved: 3 / 4 75.0%")))
         (summary_path_of (u "exp")) fresh)
  = Ok (three_metrics 10 20 (float_of_ratio 50 1)).
Proof.
  apply (C1_first_line_extracted 4300 _ _ fresh (u "Run summary" ++ nl)
           (u "10") (u "20") (u "50.00") (nl ++ u "Resolved: 3 / 4 75.0%")).
  - reflexivity.
  - reflexivity.
  - vm_compute. reflexivity.
  - intros j Hj.
    do 12 (destruct j as [|j]; [apply match_at_refute; vm_compute; reflexivity|]).
    simpl in Hj. lia.
  - reflexivity.
Defined.

Lemma exceeds_limit_iff max_str_digits n :
  exceeds_limit max_str_digits n = true <->
  640 < n /\ 0 < max_str_digits < n.
Proof.
  unfold exceeds_limit, MAX_STR_DIGITS_THRESHOLD.
  rewrite !andb_true_iff, !Nat.ltb_lt. lia.
Qed.

(** The extractor on a text with a match: the tokens of the leftmost
    match decide the result. *)
Lemma metrics_of_content_leftmost max_str_digits content :
  ~ no_match content ->
  exists before X Y R t after x y z,
    content = before ++ t ++ after
    /\ resolved_text X Y R t
    /\ (forall j, j < List.length before -> ~ match_at content j)
    /\ py_int 0 X = Ok x /\ py_int 0 Y = Ok y /\ py_float R = Ok z
    /\ metrics_of_content max_str_digits content =
         if exceeds_limit max_str_digits (List.length X)
            || exceeds_limit max_str_digits (List.length Y)
         then Raise ValueError
         else Ok (three_metrics x y z).
Proof.
  intros Hn.
  destruct (re_search_resolved content) as [m|] eqn:E;
    [|exfalso; apply Hn, re_search_none_iff, E].
  destruct (re_search_some content m E)
    as (j & X & Y & R & t & Hj & Hfirst & Hs & Ht & G1 & G2 & G3).
  pose proof Ht as (ws1 & ws2 & ws3 & ws4 & _ & _ & _ & _ & HX & HY & HR & _).
  destruct HR as (I & F & HI & HF & ->).
  destruct (py_float_decimal I F HI HF) as (di & df & _ & _ & Hz).
  destruct (py_int_digits max_str_digits X HX) as (dx & Hdx & Hx).
  destruct (py_int_digits max_str_digits Y HY) as (dy & Hdy & Hy).
  destruct (py_int_digits 0 X HX) as (dx' & Hdx' & Hx0).
  destruct (py_int_digits 0 Y HY) as (dy' & Hdy' & Hy0).
  assert (dx' = dx) by congruence. assert (dy' = dy) by congruence. subst.
  exists (firstn j content), X, Y, (I ++ u "." ++ F), t, (m_end m),
    (of_digits dx), (of_digits dy).
  eexists. split; [|split; [exact Ht|split; [|split; [|split; [|split]]]]].
  - rewrite <- Hs. symmetry. apply firstn_skipn.
  - intros i Hi. apply Hfirst. rewrite length_firstn in Hi. lia.
  - rewrite Hx0. unfold exceeds_limit. simpl. rewrite andb_false_r. reflexivity.
  - rewrite Hy0. unfold exceeds_limit. simpl. rewrite andb_false_r. reflexivity.
  - exact Hz.
  - rewrite (metrics_of_content_some _ _ _ _ _ _ E G1 G2 G3), Hx, Hy, Hz.
    destruct (exceeds_limit max_str_digits (List.length X)); [reflexivity|].
    destruct (exceeds_limit max_str_digits (List.length Y)); reflexivity.
Qed.

(** C2, as the code has it.  On a text with no match of the pattern
    [get_metrics_from_summary] returns the empty mapping.  On a text with
    a match, the count X and the total Y of the leftmost match decide: if
    either has more digits than the interpreter converts (more than 640
    digits and more than a non-zero [max_str_digits]), [int] raises
    [ValueError]; otherwise the mapping with the three entries is
    returned.  So the extractor is not total on every text, that is its
    only failure, and with the limit switched off it returns a mapping
    for every text. *)
Theorem C2_empty_without_match
  (max_str_digits : nat) (fs : filesystem) (summary_path : Path) (w : world)
  (content : str) :
  fs summary_path = Some (TextFile content) ->
  (no_match content ->
   fst (get_metrics_from_summary max_str_digits fs summary_path w) = Ok [])
  /\ (~ no_match content ->
      exists before X Y R t after x y z,
        content = before ++ t ++ after
        /\ resolved_text X Y R t
        /\ (forall j, j < List.length before -> ~ match_at content j)
        /\ py_int 0 X = Ok x /\ py_int 0 Y = Ok y /\ py_float R = Ok z
        /\ fst (get_metrics_from_summary max_str_digits fs summary_path w) =
             if exceeds_limit max_str_digits (List.length X)
                || exceeds_limit max_str_digits (List.length Y)
             then Raise ValueError
             else Ok (three_metrics x y z))
  /\ (forall n, exceeds_limit max_str_digits n = true <->
                640 < n /\ 0 < max_str_digits < n)
  /\ (max_str_digits = 0 ->
      exists metrics,
        fst (get_metrics_from_summary max_str_digits fs summary_path w) = Ok metrics).
Proof.
  intros Hfs. rewrite (get_metrics_of_text _ _ _ _ _ Hfs).
  split; [|split; [|split]].
  - intros Hn. apply metrics_of_content_none, re_search_none_iff, Hn.
  - apply metrics_of_content_leftmost.
  - apply exceeds_limit_iff.
  - intros ->.
    destruct (metrics_of_content_cases 0 content)
      as [[_ ->] | (X & Y & R & t & z & Ht & _ & _ & ->)]; [eauto|].
    destruct Ht as (_ & _ & _ & _ & _ & _ & _ & _ & HX & HY & _).
    destruct (py_int_digits 0 X HX) as (dx & _ & ->).
    destruct (py_int_digits 0 Y HY) as (dy & _ & ->).
    unfold exceeds_limit. simpl. rewrite !andb_false_r. simpl. eauto.
Qed.

Lemma C2_empty_without_match_witness :
  fst (get_metrics_from_summary 4300
         (fun _ => Some (TextFile (u "no useful data here")))
         (summary_path_of (u "exp")) fresh) = Ok [].
Proof.
  apply (proj1 (C2_empty_without_match 4300
                  (fun _ => Some (TextFile (u "no useful data here")))
                  (summary_path_of (u "exp")) fresh
                  (u "no useful data here") eq_refl)).
  apply no_match_refute. vm_compute. reflexivity.
Defined.

(** C2, read as totality on every text, fails: under the default limit of
    4300 digits the extractor raises on a report whose count has 4301
    digits. *)
Lemma C2_long_count_raises :
  fst (get_metrics_from_summary DEFAULT_MAX_STR_DIGITS
         (fun _ => Some (TextFile (u "Resolved: " ++ repeat 49%N 4301
                                     ++ u " / 1 1.0%")))
         (summary_path_of (u "exp")) fresh) = Raise ValueError.
Proof. vm_compute. reflexivity. Qed.

(** The summary file is looked for at [artifacts/summary_stats.md] under
    the experiment directory. *)
Lemma summary_path_of_parts experiment_dir :
  root (summary_path_of experiment_dir) = root_of experiment_dir /\
  parts (summary_path_of experiment_dir) =
    components experiment_dir ++ [u "artifacts"; u "summary_stats.md"].
Proof.
  unfold summary_path_of, div. simpl. split; [reflexivity|].
  rewrite <- app_assoc. reflexivity.
Qed.






(** A mapping the extractor returns is empty or has the three entries,
    read from numerals that [int] accepted. *)
Lemma metrics_of_content_ok max_str_digits content metrics :
  metrics_of_content max_str_digits content = Ok metrics ->
  metrics = [] \/
  exists X Y x y z,
    py_int max_str_digits X = Ok x /\ py_int max_str_digits Y = Ok y /\
    metrics = three_metrics x y z.
Proof.
  destruct (metrics_of_content_cases max_str_digits content)
    as [[_ ->] | (X & Y & R & t & z & _ & _ & _ & ->)].
  - intros H. inversion H. left. reflexivity.
  - destruct (py_int max_str_digits X) as [x|] eqn:Ex; simpl; [|discriminate].
    destruct (py_int max_str_digits Y) as [y|] eqn:Ey; simpl; [|discriminate].
    intros H. inversion H. right. exists X, Y, x, y, z. auto.
Qed.

(** C5. On the success path (the summary file exists and the extractor
    returns a non-empty mapping) the process ends with status 0 and its
    whole output is: the title line; the line
    [  Success Rate: <rate with two decimals>% (<count>/<total>)] exactly
    when the key success_rate is in the mapping; then, always, the header
    [Metrics (JSON):] after an empty line, and [json.dumps(metrics,
    indent=2)] of the whole mapping. *)
Theorem C5_success_path
  (max_str_digits : nat) (fs : filesystem) (experiment_dir content : str)
  (metrics : metrics_t) :
  fs (summary_path_of experiment_dir) = Some (TextFile content) ->
  metrics_of_content max_str_digits content = Ok metrics ->
  metrics <> [] ->
  exists line json,
    json_dumps_indent2 max_str_digits metrics = Ok json
    /\ (if mem (u "success_rate") metrics
        then exists rate count total,
               get metrics (u "success_rate") = Some (PyFloat rate)
               /\ get metrics (u "resolved_count") = Some (PyInt count)
               /\ get metrics (u "resolved_total") = Some (PyInt total)
               /\ line = u "  Success Rate: " ++ format_2f rate ++ u "% ("
                           ++ Z_digits count ++ u "/" ++ Z_digits total
                           ++ u ")" ++ nl
        else line = [])
    /\ run max_str_digits fs experiment_dir =
         {| output := u "SWE-bench Evaluation Results:" ++ nl ++ line
                        ++ nl ++ u "Metrics (JSON):" ++ nl ++ json ++ nl;
            status := 0;
            files_read := [summary_path_of experiment_dir] |}.
Proof.
  intros Hfs Hm Hne.
  destruct (metrics_of_content_ok _ _ _ Hm)
    as [-> | (X & Y & x & y & z & HX & HY & ->)]; [congruence|].
  pose proof (int_str_of_py_int _ _ _ HX) as Hx.
  pose proof (int_str_of_py_int _ _ _ HY) as Hy.
  destruct (json_three max_str_digits x y z _ _ Hx Hy) as [json Hj].
  exists (u "  Success Rate: " ++ format_2f z ++ u "% (" ++ Z_digits x ++ u "/"
            ++ Z_digits y ++ u ")" ++ nl), json.
  split; [exact Hj|]. split.
  - change (mem (u "success_rate") (three_metrics x y z)) with true.
    exists z, x, y. repeat split.
  - unfold run, fresh.
    rewrite (main_success _ _ _ _ _ _ _ _ _ _ _ Hfs Hm Hx Hy Hj).
    cbn [stdout opened exit_status app]. f_equal.
    repeat (rewrite <- ?app_assoc; cbn [app]). reflexivity.
Qed.

Lemma C5_success_path_witness :
  exists line json,
    json_dumps_indent2 4300 (three_metrics 10 20 (float_of_ratio 50 1)) = Ok json
    /\ line = u "  Success Rate: 50.00% (10/20)" ++ nl
    /\ output (run 4300 (fun _ => Some (TextFile (u "Resolved: 10 / 20 50.00%")))
                 (u "exp"))
       = u "SWE-bench Evaluation Results:" ++ nl ++ line
           ++ nl ++ u "Metrics (JSON):" ++ nl ++ json ++ nl.
Proof.
  destruct (C5_success_path 4300
              (fun _ => Some (TextFile (u "Resolved: 10 / 20 50.00%")))
              (u "exp") (u "Resolved: 10 / 20 50.00%")
              (three_metrics 10 20 (float_of_ratio 50 1)) eq_refl)
    as (line & json & Hj & Hl & Hr).
  - vm_compute. reflexivity.
  - discriminate.
  - exists line, json. split; [exact Hj|]. split.
    + change (mem (u "success_rate") (three_metrics 10 20 (float_of_ratio 50 1)))
        with true in Hl.
      destruct Hl as (rate & count & total & Hr1 & Hr2 & Hr3 & ->).
      inversion Hr1; inversion Hr2; inversion Hr3; subst.
      vm_compute. reflexivity.
    + rewrite Hr. reflexivity.
Defined.

(** C8. A run is determined by the experiment directory and by what is
    at the summary path: with the same directory, two file systems that
    agree there give the same output, the same exit status and the same
    reads. *)
Theorem C8_deterministic
  (max_str_digits : nat) (fs1 fs2 : filesystem) (experiment_dir : str) :
  fs1 (summary_path_of experiment_dir) = fs2 (summary_path_of experiment_dir) ->
  run max_str_digits fs1 experiment_dir = run max_str_digits fs2 experiment_dir.
Proof.
  intros H.
  unfold run, main, get_metrics_from_summary, read_text, exists_, stat, bind.
  cbv zeta. rewrite H. reflexivity.
Qed.

Lemma C8_deterministic_witness :
  run 4300 (fun _ => Some (TextFile (u "Resolved: 10 / 20 50.00%"))) (u "exp")
  = run 4300 (fun p => match parts p with
                       | [] => None
                       | _ => Some (TextFile (u "Resolved: 10 / 20 50.00%"))
                       end) (u "exp").
Proof.
  apply (C8_deterministic 4300
           (fun _ => Some (TextFile (u "Resolved: 10 / 20 50.00%")))
           (fun p => match parts p with
                     | [] => None
                     | _ => Some (TextFile (u "Resolved: 10 / 20 50.00%"))
                     end) (u "exp")).
  reflexivity.
Defined.

(** C6. For the report [Resolved: 0 / 0 0.00%] the extractor returns
    resolved_count = 0, resolved_total = 0 and success_rate = 0.0; the
    mapping is not empty, so [main] takes the success path, prints the
    three values and ends with status 0. *)
Theorem C6_all_zero_report
  (max_str_digits : nat) (fs : filesystem) (experiment_dir : str) :
  fs (summary_path_of experiment_dir)
    = Some (TextFile (u "Resolved: 0 / 0 0.00%")) ->
  metrics_of_content max_str_digits (u "Resolved: 0 / 0 0.00%")
    = Ok (three_metrics 0 0 (S754_zero false))
  /\ truthy (three_metrics 0 0 (S754_zero false)) = true
  /\ run max_str_digits fs experiment_dir =
       {| output :=
            u "SWE-bench Evaluation Results:" ++ nl
              ++ u "  Success Rate: 0.00% (0/0)" ++ nl
              ++ nl ++ u "Metrics (JSON):" ++ nl
              ++ u "{" ++ nl
              ++ u "  " ++ quoted (u "resolved_count") ++ u ": 0," ++ nl
              ++ u "  " ++ quoted (u "resolved_total") ++ u ": 0," ++ nl
              ++ u "  " ++ quoted (u "success_rate") ++ u ": 0.0" ++ nl
              ++ u "}" ++ nl;
          status := 0;
          files_read := [summary_path_of experiment_dir] |}.
Proof.
  intros Hfs.
  assert (Hm : metrics_of_content max_str_digits (u "Resolved: 0 / 0 0.00%")
               = Ok (three_metrics 0 0 (S754_zero false)))
    by (vm_compute; reflexivity).
  split; [exact Hm|]. split; [reflexivity|].
  unfold run.
  rewrite (main_success max_str_digits fs experiment_dir _ 0 0 (S754_zero false)
             (u "0") (u "0")
             (u "{" ++ nl
                ++ u "  " ++ quoted (u "resolved_count") ++ u ": 0," ++ nl
                ++ u "  " ++ quoted (u "resolved_total") ++ u ": 0," ++ nl
                ++ u "  " ++ quoted (u "success_rate") ++ u ": 0.0" ++ nl
                ++ u "}")
             _ Hfs Hm); vm_compute; reflexivity.
Qed.

Lemma C6_all_zero_report_witness :
  status (run 4300 (fun _ => Some (TextFile (u "Resolved: 0 / 0 0.00%")))
            (u "runs/exp1")) = 0%Z.
Proof.
  rewrite (proj2 (proj2 (C6_all_zero_report 4300
                           (fun _ => Some (TextFile (u "Resolved: 0 / 0 0.00%")))
                           (u "runs/exp1") eq_refl))).
  reflexivity.
Defined.

(** C7. A rate with a zero fractional part is accepted: the report
    [Resolved: 100 / 100 100.0%] gives success_rate = 100.0.  One digit
    after the point is enough, for any tokens; with no digit after the
    point, as in [Resolved: 100 / 100 100.%], nothing matches. *)
Theorem C7_one_fractional_digit (max_str_digits : nat) :
  metrics_of_content max_str_digits (u "Resolved: 100 / 100 100.0%")
    = Ok (three_metrics 100 100 (float_of_ratio 100 1))
  /\ float_repr (float_of_ratio 100 1) = u "100.0"
  /\ metrics_of_content max_str_digits (u "Resolved: 100 / 100 100.%") = Ok []
  /\ forall X Y I d x y,
       py_int max_str_digits X = Ok x ->
       py_int max_str_digits Y = Ok y ->
       digits I -> Py_UNICODE_ISDECIMAL d = true ->
       exists z,
         py_float (I ++ u "." ++ [d]) = Ok z /\
         metrics_of_content max_str_digits (resolved_line X Y (I ++ u "." ++ [d]))
           = Ok (three_metrics x y z).
Proof.
  split; [vm_compute; reflexivity|].
  split; [vm_compute; reflexivity|].
  split; [vm_compute; reflexivity|].
  intros X Y I d x y HX HY HI Hd.
  assert (Hd1 : digits [d])
    by (split; [discriminate | simpl; rewrite Hd; reflexivity]).
  destruct (py_float_decimal I [d] HI Hd1) as (di & df & _ & _ & Hz).
  eexists. split; [exact Hz|].
  assert (Hsp : spaces [32%N]) by reflexivity.
  pose proof (metrics_of_separated max_str_digits [] [32%N] X [32%N] [32%N] Y
                [32%N] (I ++ u "." ++ [d]) [] x y _
                Hsp Hsp Hsp Hsp ltac:(discriminate) HX HY Hz) as H.
  replace (resolved_line X Y (I ++ u "." ++ [d]))
    with ([] ++ u "Resolved:" ++ [32%N] ++ X ++ [32%N] ++ u "/" ++ [32%N] ++ Y
            ++ [32%N] ++ (I ++ u "." ++ [d]) ++ u "%" ++ [])
    by (unfold resolved_line; repeat (rewrite <- ?app_assoc; simpl); reflexivity).
  apply H. intros j Hj. simpl in Hj. lia.
Qed.

(** What [main] can end with: a normal return, [typer.Exit(1)], a path
    that cannot be looked up or opened, bytes that do not decode, or a
    token [int] refuses. *)
Lemma main_results max_str_digits fs experiment_dir w :
  fst (main max_str_digits fs experiment_dir w) = Ok tt
  \/ fst (main max_str_digits fs experiment_dir w) = Raise (Exit 1)
  \/ fst (main max_str_digits fs experiment_dir w) = Raise OSError
  \/ fst (main max_str_digits fs experiment_dir w) = Raise ValueError
  \/ fst (main max_str_digits fs experiment_dir w) = Raise UnicodeDecodeError.
Proof.
  destruct (fs (summary_path_of experiment_dir)) as [[content| | | |]|] eqn:Hfs.
  - destruct (metrics_of_content max_str_digits content) as [metrics|e] eqn:Hm.
    + destruct (metrics_of_content_ok _ _ _ Hm)
        as [-> | (X & Y & x & y & z & HX & HY & ->)].
      * right; left.
        unfold main, get_metrics_from_summary, read_text, exists_, stat, bind, lift,
          print, raise.
        cbv zeta. rewrite Hfs. cbn [negb stdout opened]. rewrite Hm. reflexivity.
      * left.
        pose proof (int_str_of_py_int _ _ _ HX) as Hx.
        pose proof (int_str_of_py_int _ _ _ HY) as Hy.
        destruct (json_three max_str_digits x y z _ _ Hx Hy) as [json Hj].
        rewrite (main_success _ _ _ _ _ _ _ _ _ _ w Hfs Hm Hx Hy Hj). reflexivity.
    + assert (e = ValueError) as ->.
      { destruct (metrics_of_content_cases max_str_digits content)
          as [[_ E] | (X & Y & R & t & z & Ht & _ & _ & E)]; [congruence|].
        destruct Ht as (_ & _ & _ & _ & _ & _ & _ & _ & HX & HY & _).
        rewrite Hm in E.
        destruct (py_int max_str_digits X) as [x|ex] eqn:Ex; simpl in E.
        - destruct (py_int max_str_digits Y) as [y|ey] eqn:Ey; simpl in E;
            [discriminate|].
          destruct (py_int_raises _ _ _ HY Ey) as [-> _]. congruence.
        - destruct (py_int_raises _ _ _ HX Ex) as [-> _]. congruence. }
      right; right; right; left.
      unfold main, get_metrics_from_summary, read_text, exists_, stat, bind, lift.
      cbv zeta. rewrite Hfs. cbn [negb stdout opened]. rewrite Hm. reflexivity.
  - right; right; left.
    unfold main, get_metrics_from_summary, read_text, exists_, stat, bind, lift.
    cbv zeta. rewrite Hfs. reflexivity.
  - right; right; right; right.
    unfold main, get_metrics_from_summary, read_text, exists_, stat, bind, lift.
    cbv zeta. rewrite Hfs. reflexivity.
  - right; right; left.
    unfold main, exists_, stat, bind. cbv zeta. rewrite Hfs. reflexivity.
  - right; right; left.
    unfold main, exists_, stat, bind. cbv zeta. rewrite Hfs. reflexivity.
  - right; left.
    unfold main, exists_, stat, bind, print, raise. cbv zeta. rewrite Hfs. reflexivity.
Qed.

(** C9. A mapping returned by [get_metrics_from_summary] has the three
    keys resolved_count, resolved_total and success_rate, or none of them;
    so where success_rate is present the two other lookups succeed, and
    [main] never ends with a [KeyError]. *)
Theorem C9_keys_all_or_none (max_str_digits : nat) :
  (forall fs summary_path w content metrics,
     fs summary_path = Some (TextFile content) ->
     fst (get_metrics_from_summary max_str_digits fs summary_path w) = Ok metrics ->
     (mem (u "resolved_count") metrics = true
      /\ mem (u "resolved_total") metrics = true
      /\ mem (u "success_rate") metrics = true)
     \/ (mem (u "resolved_count") metrics = false
         /\ mem (u "resolved_total") metrics = false
         /\ mem (u "success_rate") metrics = false))
  /\ (forall fs summary_path w content metrics,
        fs summary_path = Some (TextFile content) ->
        fst (get_metrics_from_summary max_str_digits fs summary_path w) = Ok metrics ->
        mem (u "success_rate") metrics = true ->
        exists count total,
          getitem metrics (u "resolved_count") = Ok count
          /\ getitem metrics (u "resolved_total") = Ok total)
  /\ (forall fs experiment_dir w,
        fst (main max_str_digits fs experiment_dir w) <> Raise KeyError).
Proof.
  split; [|split].
  - intros fs p w content metrics Hfs H.
    rewrite (get_metrics_of_text _ _ _ _ _ Hfs) in H.
    destruct (metrics_of_content_ok _ _ _ H)
      as [-> | (X & Y & x & y & z & _ & _ & ->)].
    + right. repeat split.
    + left. repeat split.
  - intros fs p w content metrics Hfs H Hmem.
    rewrite (get_metrics_of_text _ _ _ _ _ Hfs) in H.
    destruct (metrics_of_content_ok _ _ _ H)
      as [-> | (X & Y & x & y & z & _ & _ & ->)].
    + discriminate.
    + exists (PyInt x), (PyInt y). split; reflexivity.
  - intros fs d w.
    destruct (main_results max_str_digits fs d w) as [E | [E | [E | [E | E]]]];
      rewrite E; discriminate.
Qed.

Lemma C9_keys_all_or_none_witness :
  exists count total,
    getitem (three_metrics 10 20 (float_of_ratio 50 1)) (u "resolved_count") = Ok count
    /\ getitem (three_metrics 10 20 (float_of_ratio 50 1)) (u "resolved_total") = Ok total.
Proof.
  refine (proj1 (proj2 (C9_keys_all_or_none 4300))
            (fun _ => Some (TextFile (u "Resolved: 10 / 20 50.00%")))
            (summary_path_of (u "exp")) fresh (u "Resolved: 10 / 20 50.00%")
            (three_metrics 10 20 (float_of_ratio 50 1)) eq_refl _ _).
  - vm_compute. reflexivity.
  - reflexivity.
Defined.

(** C10, as the code has it.  The tokens are separated by optional
    whitespace, line breaks included, so a match may span lines:
    [Resolved: 10 /], a line break, [20 30.5%] gives 10, 20 and 30.5.
    The total and the rate need no separation either, but then the greedy
    total keeps every digit except the last one before the point:
    [Resolved: 10 / 2050.00%] gives resolved_count = 10,
    resolved_total = 205 and success_rate = 0.0. *)
Theorem C10_optional_whitespace (max_str_digits : nat) :
  (forall ws1 X ws2 ws3 Y ws4 R post x y z,
     spaces ws1 -> spaces ws2 -> spaces ws3 -> spaces ws4 -> ws4 <> [] ->
     py_int max_str_digits X = Ok x ->
     py_int max_str_digits Y = Ok y ->
     py_float R = Ok z ->
     metrics_of_content max_str_digits
       (u "Resolved:" ++ ws1 ++ X ++ ws2 ++ u "/" ++ ws3 ++ Y ++ ws4
          ++ R ++ u "%" ++ post)
     = Ok (three_metrics x y z))
  /\ (forall ws1 X ws2 ws3 D d F post x y z,
        spaces ws1 -> spaces ws2 -> spaces ws3 ->
        py_int max_str_digits X = Ok x ->
        py_int max_str_digits D = Ok y ->
        py_float ([d] ++ u "." ++ F) = Ok z ->
        metrics_of_content max_str_digits
          (u "Resolved:" ++ ws1 ++ X ++ ws2 ++ u "/" ++ ws3 ++ D
             ++ [d] ++ u "." ++ F ++ u "%" ++ post)
        = Ok (three_metrics x y z))
  /\ spaces nl
  /\ metrics_of_content max_str_digits (u "Resolved: 10 /" ++ nl ++ u "20 30.5%")
     = Ok (three_metrics 10 20 (float_of_ratio 61 2))
  /\ metrics_of_content max_str_digits (u "Resolved: 10 / 2050.00%")
     = Ok (three_metrics 10 205 (S754_zero false)).
Proof.
  split; [|split; [|split; [|split]]].
  - intros ws1 X ws2 ws3 Y ws4 R post x y z H1 H2 H3 H4 Hne HX HY HZ.
    apply (metrics_of_separated max_str_digits [] ws1 X ws2 ws3 Y ws4 R post);
      auto.
    intros j Hj. simpl in Hj. lia.
  - intros ws1 X ws2 ws3 D d F post x y z H1 H2 H3 HX HY HZ.
    apply (metrics_of_adjacent max_str_digits [] ws1 X ws2 ws3 D d F post);
      auto.
    intros j Hj. simpl in Hj. lia.
  - reflexivity.
  - vm_compute. reflexivity.
  - vm_compute. reflexivity.
Qed.

Lemma C10_optional_whitespace_witness :
  metrics_of_content 4300 (u "Resolved:10/" ++ nl ++ u "2 050.00%")
  = Ok (three_metrics 10 2 (float_of_ratio 50 1)).
Proof.
  refine (proj1 (C10_optional_whitespace 4300) [] (u "10") [] nl (u "2")
            (u " ") (u "050.00") [] 10%Z 2%Z (float_of_ratio 50 1)
            _ _ _ _ _ _ _ _).
  - reflexivity.
  - reflexivity.
  - reflexivity.
  - reflexivity.
  - discriminate.
  - reflexivity.
  - reflexivity.
  - vm_compute. reflexivity.
Defined.

(** C10, with the values 20 and 50.0 for the adjacent tokens, fails: the
    text [Resolved: 10 / 2050.00%] does not give resolved_total = 20 and
    success_rate = 50.0. *)
Lemma C10_adjacent_example_differs :
  metrics_of_content DEFAULT_MAX_STR_DIGITS (u "Resolved: 10 / 2050.00%")
  <> Ok (three_metrics 10 20 (float_of_ratio 50 1)).
Proof. vm_compute. intros H. discriminate H. Qed.

(** * Further properties of the two functions *)

Lemma str_eqb_eq a b : str_eqb a b = true <-> a = b.
Proof.
  revert b. induction a as [|x a IH]; destruct b as [|y b]; simpl;
    try (split; [discriminate | discriminate]); [split; reflexivity|].
  rewrite andb_true_iff, N.eqb_eq, IH. split.
  - intros [-> ->]. reflexivity.
  - intros H. injection H as -> ->. auto.
Qed.



(** X1. The extractor returns the empty mapping exactly when the text has
    no match of the pattern: a text with a match never gives [{}]. *)
Theorem X1_empty_iff_no_match (max_str_digits : nat) (content : str) :
  metrics_of_content max_str_digits content = Ok [] <-> no_match content.
Proof.
  split.
  - intros H.
    destruct (re_search_resolved content) as [m|] eqn:E;
      [|apply re_search_none_iff, E].
    destruct (re_search_some content m E)
      as (j & X & Y & R & t & _ & _ & _ & _ & G1 & G2 & G3).
    rewrite (metrics_of_content_some _ _ _ _ _ _ E G1 G2 G3) in H.
    destruct (py_int max_str_digits X); [|discriminate]. simpl in H.
    destruct (py_int max_str_digits Y); [|discriminate]. simpl in H.
    destruct (py_float R); discriminate.
  - intros H. apply metrics_of_content_none, re_search_none_iff, H.
Qed.

Lemma matches_pattern_prefix t : matches_pattern t -> exists r, t = u "Resolved:" ++ r.
Proof.
  intros (X & Y & R & ws1 & ws2 & ws3 & ws4 & _ & _ & _ & _ & _ & _ & _ & ->).
  eauto.
Qed.



(** The four ways a run can go, by what is at the summary path. *)
Lemma run_missing max_str_digits fs experiment_dir :
  fs (summary_path_of experiment_dir) = None ->
  run max_str_digits fs experiment_dir =
    {| output := u "Error: Summary file not found at "
                   ++ to_str (summary_path_of experiment_dir) ++ nl;
       status := 1; files_read := [] |}.
Proof.
  intros H. unfold run, main, exists_, stat, bind, print, raise. cbv zeta. rewrite H.
  cbn [negb stdout opened exit_status app]. rewrite <- app_assoc. reflexivity.
Qed.

Lemma run_not_text max_str_digits fs experiment_dir :
  fs (summary_path_of experiment_dir) = Some NotText ->
  run max_str_digits fs experiment_dir =
    {| output := []; status := 1;
       files_read := [summary_path_of experiment_dir] |}.
Proof.
  intros H. unfold run, main, get_metrics_from_summary, read_text, exists_, stat, bind.
  cbv zeta. rewrite H. reflexivity.
Qed.

Lemma run_undecodable max_str_digits fs experiment_dir :
  fs (summary_path_of experiment_dir) = Some Undecodable ->
  run max_str_digits fs experiment_dir =
    {| output := []; status := 1;
       files_read := [summary_path_of experiment_dir] |}.
Proof.
  intros H. unfold run, main, get_metrics_from_summary, read_text, exists_, stat,
    bind.
  cbv zeta. rewrite H. reflexivity.
Qed.

Lemma run_stat_raises max_str_digits fs experiment_dir :
  stat fs (summary_path_of experiment_dir) = StatRaises ->
  run max_str_digits fs experiment_dir =
    {| output := []; status := 1; files_read := [] |}.
Proof.
  intros H. unfold run, main, exists_, bind. cbv zeta. rewrite H. reflexivity.
Qed.

Lemma run_extractor_raises max_str_digits fs experiment_dir content e :
  fs (summary_path_of experiment_dir) = Some (TextFile content) ->
  metrics_of_content max_str_digits content = Raise e ->
  e = ValueError /\
  run max_str_digits fs experiment_dir =
    {| output := []; status := 1;
       files_read := [summary_path_of experiment_dir] |}.
Proof.
  intros Hfs Hm.
  assert (e = ValueError) as ->.
  { destruct (metrics_of_content_cases max_str_digits content)
      as [[_ E] | (X & Y & R & t & z & Ht & _ & _ & E)]; [congruence|].
    destruct Ht as (_ & _ & _ & _ & _ & _ & _ & _ & HX & HY & _).
    rewrite Hm in E.
    destruct (py_int max_str_digits X) as [x|ex] eqn:Ex; simpl in E.
    - destruct (py_int max_str_digits Y) as [y|ey] eqn:Ey; simpl in E;
        [discriminate|].
      destruct (py_int_raises _ _ _ HY Ey) as [-> _]. congruence.
    - destruct (py_int_raises _ _ _ HX Ex) as [-> _]. congruence. }
  split; [reflexivity|].
  unfold run, main, get_metrics_from_summary, read_text, exists_, stat, bind, lift.
  cbv zeta. rewrite Hfs. cbn [negb stdout opened]. rewrite Hm. reflexivity.
Qed.

Lemma run_empty_mapping max_str_digits fs experiment_dir content :
  fs (summary_path_of experiment_dir) = Some (TextFile content) ->
  metrics_of_content max_str_digits content = Ok [] ->
  run max_str_digits fs experiment_dir =
    {| output := u "Error: Could not parse any metrics from "
                   ++ to_str (summary_path_of experiment_dir) ++ nl;
       status := 1;
       files_read := [summary_path_of experiment_dir] |}.
Proof.
  intros Hfs Hm.
  unfold run, main, get_metrics_from_summary, read_text, exists_, stat, bind, lift,
    print, raise.
  cbv zeta. rewrite Hfs. cbn [negb stdout opened]. rewrite Hm.
  cbn [negb truthy stdout opened exit_status app]. rewrite <- app_assoc.
  reflexivity.
Qed.

Lemma run_three_metrics max_str_digits fs experiment_dir content X Y x y z :
  fs (summary_path_of experiment_dir) = Some (TextFile content) ->
  metrics_of_content max_str_digits content = Ok (three_metrics x y z) ->
  py_int max_str_digits X = Ok x ->
  py_int max_str_digits Y = Ok y ->
  run max_str_digits fs experiment_dir =
    {| output :=
         u "SWE-bench Evaluation Results:" ++ nl
           ++ u "  Success Rate: " ++ format_2f z ++ u "% (" ++ Z_digits x
           ++ u "/" ++ Z_digits y ++ u ")" ++ nl
           ++ nl ++ u "Metrics (JSON):" ++ nl
           ++ u "{" ++ nl
           ++ u "  " ++ quoted (u "resolved_count") ++ u ": " ++ Z_digits x
           ++ u "," ++ nl
           ++ u "  " ++ quoted (u "resolved_total") ++ u ": " ++ Z_digits y
           ++ u "," ++ nl
           ++ u "  " ++ quoted (u "success_rate") ++ u ": " ++ json_float z ++ nl
           ++ u "}" ++ nl;
       status := 0;
       files_read := [summary_path_of experiment_dir] |}.
Proof.
  intros Hfs Hm HX HY.
  pose proof (int_str_of_py_int _ _ _ HX) as Hx.
  pose proof (int_str_of_py_int _ _ _ HY) as Hy.
  assert (Hj : json_dumps_indent2 max_str_digits (three_metrics x y z) =
               Ok (u "{" ++ nl
                     ++ u "  " ++ quoted (u "resolved_count") ++ u ": "
                     ++ Z_digits x ++ u "," ++ nl
                     ++ u "  " ++ quoted (u "resolved_total") ++ u ": "
                     ++ Z_digits y ++ u "," ++ nl
                     ++ u "  " ++ quoted (u "success_rate") ++ u ": "
                     ++ json_float z ++ nl ++ u "}")).
  { unfold json_dumps_indent2, three_metrics, json_items, json_item.
    cbn [fst snd json_value rbind]. rewrite Hx, Hy. cbn [rbind].
    assert (Hz : json_value max_str_digits (PyFloat z) = Ok (json_float z))
      by (destruct z; reflexivity).
    cbn [json_value] in Hz. rewrite Hz. cbn [rbind]. f_equal.
    unfold quoted, encode_basestring_ascii. simpl.
    repeat (rewrite <- ?app_assoc; simpl). reflexivity. }
  unfold run.
  rewrite (main_success _ _ _ _ _ _ _ _ _ _ _ Hfs Hm Hx Hy Hj).
  cbn [stdout opened exit_status]. f_equal.
  unfold quoted. simpl. repeat (rewrite <- ?app_assoc; simpl). reflexivity.
Qed.

(** X3. The exit status is 0 or 1, and it is 0 exactly when the summary
    file is a text from which the extractor returns a non-empty mapping. *)
Theorem X3_exit_status
  (max_str_digits : nat) (fs : filesystem) (experiment_dir : str) :
  (status (run max_str_digits fs experiment_dir) = 0%Z
   \/ status (run max_str_digits fs experiment_dir) = 1%Z)
  /\ (status (run max_str_digits fs experiment_dir) = 0%Z <->
      exists content metrics,
        fs (summary_path_of experiment_dir) = Some (TextFile content)
        /\ metrics_of_content max_str_digits content = Ok metrics
        /\ metrics <> []).
Proof.
  destruct (fs (summary_path_of experiment_dir)) as [[content| | | |]|] eqn:Hfs.
  - destruct (metrics_of_content max_str_digits content) as [metrics|e] eqn:Hm.
    + destruct (metrics_of_content_ok _ _ _ Hm)
        as [-> | (X & Y & x & y & z & HX & HY & ->)].
      * rewrite (run_empty_mapping _ _ _ _ Hfs Hm). cbn [status].
        split; [right; reflexivity|]. split; [discriminate|].
        intros (c & m & Hc & Hmc & Hne). congruence.
      * rewrite (run_three_metrics _ _ _ _ _ _ _ _ _ Hfs Hm HX HY). cbn [status].
        split; [left; reflexivity|]. split; [|reflexivity].
        intros _. exists content, (three_metrics x y z).
        repeat split; [exact Hm | discriminate].
    + destruct (run_extractor_raises _ _ _ _ _ Hfs Hm) as [_ ->]. cbn [status].
      split; [right; reflexivity|]. split; [discriminate|].
      intros (c & m & Hc & Hmc & Hne). congruence.
  - rewrite (run_not_text _ _ _ Hfs). cbn [status].
    split; [right; reflexivity|]. split; [discriminate|].
    intros (c & m & Hc & _). discriminate.
  - rewrite (run_undecodable _ _ _ Hfs). cbn [status].
    split; [right; reflexivity|]. split; [discriminate|].
    intros (c & m & Hc & _). discriminate.
  - rewrite (run_stat_raises max_str_digits fs experiment_dir)
      by (unfold stat; rewrite Hfs; reflexivity).
    cbn [status]. split; [right; reflexivity|]. split; [discriminate|].
    intros (c & m & Hc & _). discriminate.
  - rewrite (run_stat_raises max_str_digits fs experiment_dir)
      by (unfold stat; rewrite Hfs; reflexivity).
    cbn [status]. split; [right; reflexivity|]. split; [discriminate|].
    intros (c & m & Hc & _). discriminate.
  - rewrite (run_missing _ _ _ Hfs). cbn [status].
    split; [right; reflexivity|]. split; [discriminate|].
    intros (c & m & Hc & _). discriminate.
Qed.

(** X4. A run tries to open at most one file, the summary file, and does
    so exactly when [exists()] returned [True], that is when [stat] on the
    summary path succeeded.  When the path is reported absent, or when
    [stat] raises (a name too long, a directory that may not be searched,
    even with the file behind it), nothing is opened. *)
Theorem X4_reads_only_summary
  (max_str_digits : nat) (fs : filesystem) (experiment_dir : str) :
  files_read (run max_str_digits fs experiment_dir) =
    match stat fs (summary_path_of experiment_dir) with
    | StatOk => [summary_path_of experiment_dir]
    | StatIgnored | StatRaises => []
    end.
Proof.
  destruct (fs (summary_path_of experiment_dir)) as [[content| | | |]|] eqn:Hfs;
    unfold stat at 1; rewrite Hfs.
  - destruct (metrics_of_content max_str_digits content) as [metrics|e] eqn:Hm.
    + destruct (metrics_of_content_ok _ _ _ Hm)
        as [-> | (X & Y & x & y & z & HX & HY & ->)].
      * rewrite (run_empty_mapping _ _ _ _ Hfs Hm). reflexivity.
      * rewrite (run_three_metrics _ _ _ _ _ _ _ _ _ Hfs Hm HX HY). reflexivity.
    + destruct (run_extractor_raises _ _ _ _ _ Hfs Hm) as [_ ->]. reflexivity.
  - rewrite (run_not_text _ _ _ Hfs). reflexivity.
  - rewrite (run_undecodable _ _ _ Hfs). reflexivity.
  - rewrite (run_stat_raises max_str_digits fs experiment_dir)
      by (unfold stat; rewrite Hfs; reflexivity).
    reflexivity.
  - rewrite (run_stat_raises max_str_digits fs experiment_dir)
      by (unfold stat; rewrite Hfs; reflexivity).
    reflexivity.
  - rewrite (run_missing _ _ _ Hfs). reflexivity.
Qed.

(** X5. When [stat] finds the summary path but the file cannot be read
    as text, [main] prints nothing, not even the not-found diagnostic,
    and the process ends with status 1: for a directory or a file without
    read permission [read_text()] raises [OSError], for a file whose bytes
    do not decode it raises [UnicodeDecodeError]. *)
Theorem X5_unreadable_summary
  (max_str_digits : nat) (fs : filesystem) (experiment_dir : str) :
  (fs (summary_path_of experiment_dir) = Some NotText ->
   fst (main max_str_digits fs experiment_dir fresh) = Raise OSError
   /\ run max_str_digits fs experiment_dir =
        {| output := []; status := 1;
           files_read := [summary_path_of experiment_dir] |})
  /\ (fs (summary_path_of experiment_dir) = Some Undecodable ->
      fst (main max_str_digits fs experiment_dir fresh) = Raise UnicodeDecodeError
      /\ run max_str_digits fs experiment_dir =
           {| output := []; status := 1;
              files_read := [summary_path_of experiment_dir] |}).
Proof.
  split; intros H.
  - split; [|apply run_not_text, H].
    unfold main, get_metrics_from_summary, read_text, exists_, stat, bind.
    cbv zeta. rewrite H. reflexivity.
  - split; [|apply run_undecodable, H].
    unfold main, get_metrics_from_summary, read_text, exists_, stat, bind.
    cbv zeta. rewrite H. reflexivity.
Qed.

Lemma X5_unreadable_summary_witness :
  run 4300 (fun _ => Some Undecodable) (u "runs/exp1") =
    {| output := []; status := 1;
       files_read := [summary_path_of (u "runs/exp1")] |}
  /\ run 4300 (fun _ => Some NotText) (u "runs/exp1") =
       {| output := []; status := 1;
          files_read := [summary_path_of (u "runs/exp1")] |}.
Proof.
  split.
  - exact (proj2 (proj2 (X5_unreadable_summary 4300 (fun _ => Some Undecodable)
                           (u "runs/exp1")) eq_refl)).
  - exact (proj2 (proj1 (X5_unreadable_summary 4300 (fun _ => Some NotText)
                           (u "runs/exp1")) eq_refl)).
Defined.

(** X6. When the extractor raises on the text of the summary file, the
    exception is a [ValueError] from [int], [main] has printed nothing by
    then (no diagnostic, no partial result) and the process ends with
    status 1. *)
Theorem X6_extractor_failure_is_silent
  (max_str_digits : nat) (fs : filesystem) (experiment_dir content : str)
  (e : exn) :
  fs (summary_path_of experiment_dir) = Some (TextFile content) ->
  metrics_of_content max_str_digits content = Raise e ->
  e = ValueError
  /\ fst (main max_str_digits fs experiment_dir fresh) = Raise ValueError
  /\ run max_str_digits fs experiment_dir =
       {| output := []; status := 1;
          files_read := [summary_path_of experiment_dir] |}.
Proof.
  intros Hfs Hm.
  destruct (run_extractor_raises _ _ _ _ _ Hfs Hm) as [-> Hr].
  split; [reflexivity|]. split; [|exact Hr].
  unfold main, get_metrics_from_summary, read_text, exists_, stat, bind, lift.
  cbv zeta. rewrite Hfs. cbn [negb stdout opened]. rewrite Hm. reflexivity.
Qed.

Lemma X6_extractor_failure_is_silent_witness :
  output (run 4300
            (fun _ => Some (TextFile (u "Resolved: 1 / " ++ repeat 57%N 5000
                                        ++ u " 1.0%")))
            (u "exp")) = [].
Proof.
  rewrite (proj2 (proj2 (X6_extractor_failure_is_silent 4300
             (fun _ => Some (TextFile (u "Resolved: 1 / " ++ repeat 57%N 5000
                                         ++ u " 1.0%")))
             (u "exp")
             (u "Resolved: 1 / " ++ repeat 57%N 5000 ++ u " 1.0%")
             ValueError eq_refl ltac:(vm_compute; reflexivity)))).
  reflexivity.
Defined.

(** X7. The whole output of a successful run, for every mapping the
    extractor can return: the title, the rate with two decimals and the
    two counts in canonical decimal form, then the JSON object with the
    keys in the order resolved_count, resolved_total, success_rate, one
    per line, indented by two blanks. *)
Theorem X7_success_output_layout
  (max_str_digits : nat) (fs : filesystem) (experiment_dir content : str)
  (metrics : metrics_t) :
  fs (summary_path_of experiment_dir) = Some (TextFile content) ->
  metrics_of_content max_str_digits content = Ok metrics ->
  metrics <> [] ->
  exists x y z,
    metrics = three_metrics x y z
    /\ run max_str_digits fs experiment_dir =
         {| output :=
              u "SWE-bench Evaluation Results:" ++ nl
                ++ u "  Success Rate: " ++ format_2f z ++ u "% (" ++ Z_digits x
                ++ u "/" ++ Z_digits y ++ u ")" ++ nl
                ++ nl ++ u "Metrics (JSON):" ++ nl
                ++ u "{" ++ nl
                ++ u "  " ++ quoted (u "resolved_count") ++ u ": " ++ Z_digits x
                ++ u "," ++ nl
                ++ u "  " ++ quoted (u "resolved_total") ++ u ": " ++ Z_digits y
                ++ u "," ++ nl
                ++ u "  " ++ quoted (u "success_rate") ++ u ": " ++ json_float z
                ++ nl
                ++ u "}" ++ nl;
            status := 0;
            files_read := [summary_path_of experiment_dir] |}.
Proof.
  intros Hfs Hm Hne.
  destruct (metrics_of_content_ok _ _ _ Hm)
    as [-> | (X & Y & x & y & z & HX & HY & ->)]; [congruence|].
  exists x, y, z. split; [reflexivity|].
  exact (run_three_metrics _ _ _ _ _ _ _ _ _ Hfs Hm HX HY).
Qed.

Lemma X7_success_output_layout_witness :
  output (run 4300 (fun _ => Some (TextFile (u "Resolved: 007 / 12 58.333%")))
            (u "exp")) =
  u "SWE-bench Evaluation Results:" ++ nl
    ++ u "  Success Rate: 58.33% (7/12)" ++ nl
    ++ nl ++ u "Metrics (JSON):" ++ nl
    ++ u "{" ++ nl
    ++ u "  " ++ quoted (u "resolved_count") ++ u ": 7," ++ nl
    ++ u "  " ++ quoted (u "resolved_total") ++ u ": 12," ++ nl
    ++ u "  " ++ quoted (u "success_rate") ++ u ": 58.333" ++ nl
    ++ u "}" ++ nl.
Proof.
  destruct (X7_success_output_layout 4300
              (fun _ => Some (TextFile (u "Resolved: 007 / 12 58.333%")))
              (u "exp") (u "Resolved: 007 / 12 58.333%")
              (three_metrics 7 12 (float_of_ratio 58333 1000)) eq_refl)
    as (x & y & z & E & Hr).
  - vm_compute. reflexivity.
  - discriminate.
  - injection E as <- <- <-. rewrite Hr. vm_compute. reflexivity.
Defined.

(** The rounding of a non-negative quotient is never negative nor NaN. *)
Lemma shr_1_nonneg mrs : (0 <= shr_m mrs)%Z -> (0 <= shr_m (shr_1 mrs))%Z.
Proof.
  destruct mrs as [m r s0]. simpl.
  destruct m as [|[p|p|]|p]; simpl; lia.
Qed.

Lemma iter_pos_nonneg n :
  forall mrs, (0 <= shr_m mrs)%Z -> (0 <= shr_m (iter_pos shr_1 n mrs))%Z.
Proof.
  induction n as [n IH|n IH|]; intros mrs H; simpl.
  - apply IH, IH, shr_1_nonneg, H.
  - apply IH, IH, H.
  - apply shr_1_nonneg, H.
Qed.

Lemma shr_fexp_nonneg m e l :
  (0 <= m)%Z -> (0 <= shr_m (fst (shr_fexp prec emax m e l)))%Z.
Proof.
  intros H. unfold shr_fexp, shr.
  assert (H0 : (0 <= shr_m (shr_record_of_loc m l))%Z)
    by (destruct l as [|[| |]]; exact H).
  destruct (fexp prec emax (Zdigits2 m + e) - e)%Z; simpl; auto.
  apply iter_pos_nonneg, H0.
Qed.

Lemma round_nearest_even_nonneg m l :
  (0 <= m)%Z -> (0 <= round_nearest_even m l)%Z.
Proof.
  intros H. unfold round_nearest_even.
  destruct l as [|[| |]]; try lia. destruct (Z.even m); lia.
Qed.

Lemma binary_round_aux_nonneg m e l :
  (0 <= m)%Z -> nonnegative_float (binary_round_aux prec emax false m e l).
Proof.
  intros H. unfold binary_round_aux.
  pose proof (shr_fexp_nonneg m e l H) as H1.
  destruct (shr_fexp prec emax m e l) as [mrs' e'] eqn:E1. simpl in H1.
  pose proof (shr_fexp_nonneg
                (round_nearest_even (shr_m mrs') (loc_of_shr_record mrs'))
                e' loc_Exact (round_nearest_even_nonneg _ _ H1)) as H2.
  destruct (shr_fexp prec emax
              (round_nearest_even (shr_m mrs') (loc_of_shr_record mrs'))
              e' loc_Exact) as [mrs'' e''] eqn:E2.
  simpl in H2.
  destruct (shr_m mrs'') as [|p|p]; [reflexivity | | lia].
  destruct (e'' <=? emax - prec)%Z; reflexivity.
Qed.

Lemma float_of_ratio_nonneg p q :
  (0 <= p)%Z -> (0 < q)%Z -> nonnegative_float (float_of_ratio p q).
Proof.
  intros Hp Hq. unfold float_of_ratio.
  destruct (p =? 0)%Z; [reflexivity|].
  unfold SFdiv_core_binary.
  set (e' := Z.min _ _). set (m' := match (0 - 0 - e')%Z with
                                     | 0%Z => p
                                     | Z.pos _ => Z.shiftl p (0 - 0 - e')
                                     | Z.neg _ => 0%Z
                                     end).
  assert (Hm' : (0 <= m')%Z).
  { unfold m'. destruct (0 - 0 - e')%Z; [exact Hp | | lia].
    apply Z.shiftl_nonneg, Hp. }
  destruct (Z.div_eucl m' q) as [d r] eqn:E.
  assert (d = (m' / q)%Z) as -> by (unfold Z.div; rewrite E; reflexivity).
  apply binary_round_aux_nonneg. apply Z.div_pos; lia.
Qed.

Lemma py_float_nonneg R z : py_float R = Ok z -> nonnegative_float z.
Proof.
  unfold py_float. destruct (split_dot R) as [[i f]|]; [|discriminate].
  destruct i as [|a i]; [discriminate|]. destruct f as [|b f]; [discriminate|].
  destruct (digit_values (a :: i)) as [di|] eqn:Ei; [|discriminate].
  destruct (digit_values (b :: f)) as [df|] eqn:Ef; [|discriminate].
  intros H. injection H as <-.
  apply float_of_ratio_nonneg.
  - assert (Hd : digit_values ((a :: i) ++ (b :: f)) = Some (di ++ df)).
    { clear - Ei Ef. revert di Ei. generalize (a :: i) as s.
      induction s as [|c s IH]; simpl; intros di Ei.
      - injection Ei as <-. exact Ef.
      - destruct (Py_UNICODE_TODECIMAL c); [|discriminate].
        destruct (digit_values s) as [ds|]; [|discriminate].
        injection Ei as <-. rewrite (IH ds eq_refl). reflexivity. }
    apply (of_digits_bound _ (digit_values_range _ _ Hd)).
  - apply Z.pow_pos_nonneg; lia.
Qed.

(** X8. The numbers of a returned mapping are never negative and the rate
    is never NaN: the pattern has no place for a sign. *)
Theorem X8_metrics_nonnegative
  (max_str_digits : nat) (content : str) (metrics : metrics_t) (k : str)
  (v : value) :
  metrics_of_content max_str_digits content = Ok metrics ->
  get metrics k = Some v ->
  match v with
  | PyInt n => (0 <= n)%Z
  | PyFloat z => nonnegative_float z
  end.
Proof.
  intros Hm Hk.
  destruct (metrics_of_content_cases max_str_digits content)
    as [[_ E] | (X & Y & R & t & z & _ & _ & Hz & E)]; rewrite Hm in E.
  - injection E as ->. discriminate.
  - destruct (py_int max_str_digits X) as [x|] eqn:Ex; simpl in E; [|discriminate].
    destruct (py_int max_str_digits Y) as [y|] eqn:Ey; simpl in E; [|discriminate].
    injection E as ->.
    apply py_int_inv in Ex as (_ & _ & dx & Hdx & ->).
    apply py_int_inv in Ey as (_ & _ & dy & Hdy & ->).
    unfold three_metrics, get in Hk.
    destruct (str_eqb (u "resolved_count") k).
    { injection Hk as <-. apply (of_digits_bound _ (digit_values_range _ _ Hdx)). }
    destruct (str_eqb (u "resolved_total") k).
    { injection Hk as <-. apply (of_digits_bound _ (digit_values_range _ _ Hdy)). }
    destruct (str_eqb (u "success_rate") k); [|discriminate].
    injection Hk as <-. exact (py_float_nonneg _ _ Hz).
Qed.

Lemma X8_metrics_nonnegative_witness :
  nonnegative_float (float_of_ratio 5 10).
Proof.
  exact (X8_metrics_nonnegative 4300 (u "Resolved: 1 / 2 0.5%")
           (three_metrics 1 2 (float_of_ratio 5 10)) (u "success_rate")
           (PyFloat (float_of_ratio 5 10))
           ltac:(vm_compute; reflexivity) eq_refl).
Defined.

Lemma Z_digits_length_le max_str_digits s x :
  py_int max_str_digits s = Ok x ->
  List.length (Z_digits x) <= List.length s.
Proof.
  intros H. apply py_int_inv in H as (Hd & _ & ds & Hds & ->).
  pose proof (of_digits_bound ds (digit_values_range _ _ Hds)) as Hb.
  rewrite (digit_values_length _ _ Hds) in Hb. unfold Z_digits.
  pose proof (digits_fuel_length (S (Z.to_nat (Z.log2 (of_digits ds))))
                (of_digits ds) [] (List.length s) Hb (digits_length s Hd)) as H.
  rewrite Nat.add_0_r in H. exact H.
Qed.

(** X9. The counts are printed in canonical decimal form: for a token
    that [int] read as [x], [str(x)] succeeds, is no longer than the
    token, and [int] reads it back as [x], under the same digit limit. *)
Theorem X9_count_prints_and_reads_back
  (max_str_digits : nat) (X : str) (x : Z) :
  py_int max_str_digits X = Ok x ->
  int_str max_str_digits x = Ok (Z_digits x)
  /\ List.length (Z_digits x) <= List.length X
  /\ py_int max_str_digits (Z_digits x) = Ok x.
Proof.
  intros H.
  pose proof (Z_digits_length_le _ _ _ H) as Hlen.
  split; [apply (int_str_of_py_int _ _ _ H)|]. split; [exact Hlen|].
  pose proof (py_int_inv _ _ _ H) as (_ & Hl & ds & Hds & Hx).
  assert (Hx0 : (0 <= x)%Z)
    by (subst x; apply (of_digits_bound _ (digit_values_range _ _ Hds))).
  pose proof (py_int_Z_digits x Hx0) as H0.
  pose proof (py_int_inv _ _ _ H0) as (Hd & _ & ds' & Hds' & Hx').
  destruct (py_int_digits max_str_digits (Z_digits x) Hd) as (ds'' & Hds'' & ->).
  rewrite (exceeds_limit_mono _ _ _ Hlen Hl). congruence.
Qed.

Lemma X9_count_prints_and_reads_back_witness :
  int_str 4300 7 = Ok (Z_digits 7)
  /\ List.length (Z_digits 7) <= List.length (u "007")
  /\ py_int 4300 (Z_digits 7) = Ok 7%Z.
Proof.
  exact (X9_count_prints_and_reads_back 4300 (u "007") 7 eq_refl).
Defined.

Lemma holds_from_spec f count :
  forall z, holds_from f z count = true ->
  forall n, (z <= n < z + Z.of_nat count)%Z -> f n = true.
Proof.
  induction count as [|count IH]; intros z H n Hn; [lia|].
  cbn [holds_from] in H. apply andb_true_iff in H as [H0 H1].
  destruct (Z.eq_dec n z) as [->|Hne]; [exact H0|].
  apply (IH (Z.succ z) H1). lia.
Qed.

Lemma percent_round_trips_all :
  holds_from percent_round_trips 0 (Z.to_nat 10001) = true.
Proof. vm_compute. reflexivity. Qed.

(** X10. Every percentage from 0.00 to 100.00 written with two decimals
    is shown unchanged: [float] reads the token, and the [.2f] form that
    [main] prints in the Success Rate line is the same text. *)
Theorem X10_percentages_round_trip (n : Z) :
  (0 <= n <= 10000)%Z ->
  exists z,
    py_float (percent_token n) = Ok z
    /\ format_2f z = percent_token n.
Proof.
  intros Hn.
  pose proof (holds_from_spec _ _ _ percent_round_trips_all n ltac:(lia)) as H.
  unfold percent_round_trips in H.
  destruct (py_float (percent_token n)) as [z|] eqn:Ez; [|discriminate].
  apply str_eqb_eq in H. exists z. split; [reflexivity | exact H].
Qed.

Lemma X10_percentages_round_trip_witness :
  exists z, py_float (u "58.33") = Ok z /\ format_2f z = u "58.33".
Proof.
  exact (X10_percentages_round_trip 5833 ltac:(lia)).
Defined.

(** X11. The rate is not checked to be a percentage, nor to be finite:
    when the rate token is so long that [float] gives infinity, the run
    still succeeds with status 0, the Success Rate line shows [inf%] and
    the JSON block holds the bare word [Infinity]. *)
Theorem X11_rate_overflow
  (max_str_digits : nat) (fs : filesystem) (experiment_dir content : str)
  (x y : Z) :
  fs (summary_path_of experiment_dir) = Some (TextFile content) ->
  metrics_of_content max_str_digits content
    = Ok (three_metrics x y (S754_infinity false)) ->
  run max_str_digits fs experiment_dir =
    {| output :=
         u "SWE-bench Evaluation Results:" ++ nl
           ++ u "  Success Rate: inf% (" ++ Z_digits x ++ u "/" ++ Z_digits y
           ++ u ")" ++ nl
           ++ nl ++ u "Metrics (JSON):" ++ nl
           ++ u "{" ++ nl
           ++ u "  " ++ quoted (u "resolved_count") ++ u ": " ++ Z_digits x
           ++ u "," ++ nl
           ++ u "  " ++ quoted (u "resolved_total") ++ u ": " ++ Z_digits y
           ++ u "," ++ nl
           ++ u "  " ++ quoted (u "success_rate") ++ u ": Infinity" ++ nl
           ++ u "}" ++ nl;
       status := 0;
       files_read := [summary_path_of experiment_dir] |}.
Proof.
  intros Hfs Hm.
  destruct (metrics_of_content_ok _ _ _ Hm)
    as [E | (X & Y & x' & y' & z' & HX & HY & E)]; [discriminate|].
  injection E as -> -> _.
  rewrite (run_three_metrics _ _ _ _ _ _ _ _ _ Hfs Hm HX HY).
  f_equal.
Qed.

Lemma X11_rate_overflow_witness :
  status (run 4300
            (fun _ => Some (TextFile (u "Resolved: 1 / 2 " ++ repeat 57%N 310
                                        ++ u ".0%")))
            (u "exp")) = 0%Z.
Proof.
  rewrite (X11_rate_overflow 4300
             (fun _ => Some (TextFile (u "Resolved: 1 / 2 " ++ repeat 57%N 310
                                         ++ u ".0%")))
             (u "exp") (u "Resolved: 1 / 2 " ++ repeat 57%N 310 ++ u ".0%")
             1 2 eq_refl ltac:(vm_compute; reflexivity)).
  reflexivity.
Defined.

(** X12. A returned mapping is read off the text: the text is
    [before ++ t ++ after] where [t] has the shape of the pattern with
    tokens X, Y, R, no match starts inside [before], and the three
    entries are the values [int] and [float] give to X, Y and R. *)
Theorem X12_values_come_from_leftmost_match
  (max_str_digits : nat) (content : str) (x y : Z) (z : float) :
  metrics_of_content max_str_digits content = Ok (three_metrics x y z) ->
  exists before X Y R t after,
    content = before ++ t ++ after
    /\ resolved_text X Y R t
    /\ (forall j, j < List.length before -> ~ match_at content j)
    /\ py_int max_str_digits X = Ok x
    /\ py_int max_str_digits Y = Ok y
    /\ py_float R = Ok z.
Proof.
  intros Hm.
  destruct (re_search_resolved content) as [m|] eqn:E.
  - destruct (re_search_some content m E)
      as (j & X & Y & R & t & Hj & Hfirst & Hs & Ht & G1 & G2 & G3).
    rewrite (metrics_of_content_some _ _ _ _ _ _ E G1 G2 G3) in Hm.
    destruct (py_int max_str_digits X) as [x'|] eqn:Ex; simpl in Hm; [|discriminate].
    destruct (py_int max_str_digits Y) as [y'|] eqn:Ey; simpl in Hm; [|discriminate].
    destruct (py_float R) as [z'|] eqn:Ez; simpl in Hm; [|discriminate].
    injection Hm as -> -> ->.
    exists (firstn j content), X, Y, R, t, (m_end m).
    split; [|split; [exact Ht|split; [|auto]]].
    + rewrite <- Hs. symmetry. apply firstn_skipn.
    + intros i Hi. apply Hfirst. rewrite length_firstn in Hi. lia.
  - rewrite (metrics_of_content_none _ _ E) in Hm. discriminate.
Qed.

Lemma X12_values_come_from_leftmost_match_witness :
  exists before X Y R t after,
    u "total 3; Resolved: 10 / 20 50.00% (final)" = before ++ t ++ after
    /\ resolved_text X Y R t
    /\ (forall j, j < List.length before ->
          ~ match_at (u "total 3; Resolved: 10 / 20 50.00% (final)") j)
    /\ py_int 4300 X = Ok 10%Z
    /\ py_int 4300 Y = Ok 20%Z
    /\ py_float R = Ok (float_of_ratio 50 1).
Proof.
  apply (X12_values_come_from_leftmost_match 4300
           (u "total 3; Resolved: 10 / 20 50.00% (final)") 10 20
           (float_of_ratio 50 1)).
  vm_compute. reflexivity.
Defined.

Lemma resolved_text_lengths X Y R t :
  resolved_text X Y R t ->
  List.length X <= List.length t /\ List.length Y <= List.length t.
Proof.
  intros (ws1 & ws2 & ws3 & ws4 & _ & _ & _ & _ & _ & _ & _ & ->).
  rewrite !length_app. lia.
Qed.

(** X13. The digit limit cannot be met by a short report: on a text of
    at most 640 characters the extractor returns a mapping, whatever the
    interpreter setting, and it is the mapping returned with the limit
    switched off. *)
Theorem X13_short_reports_never_fail (max_str_digits : nat) (content : str) :
  List.length content <= 640 ->
  exists metrics,
    metrics_of_content max_str_digits content = Ok metrics
    /\ metrics_of_content 0 content = Ok metrics.
Proof.
  intros Hlen.
  destruct (re_search_resolved content) as [m|] eqn:E.
  - destruct (re_search_some content m E)
      as (j & X & Y & R & t & Hj & _ & Hs & Ht & G1 & G2 & G3).
    rewrite !(metrics_of_content_some _ _ _ _ _ _ E G1 G2 G3).
    assert (Hlt : List.length t <= 640).
    { assert (H : List.length (skipn j content) <= List.length content)
        by (rewrite length_skipn; lia).
      rewrite Hs, length_app in H. lia. }
    destruct (resolved_text_lengths _ _ _ _ Ht) as [HlX HlY].
    pose proof Ht as (_ & _ & _ & _ & _ & _ & _ & _ & HX & HY & HR & _).
    destruct HR as (I & F & HI & HF & ->).
    destruct (py_float_decimal I F HI HF) as (di & df & _ & _ & ->).
    assert (Hnot : forall lim n, n <= 640 -> exceeds_limit lim n = false).
    { intros lim n Hn. unfold exceeds_limit, MAX_STR_DIGITS_THRESHOLD.
      replace (640 <? n) with false by (symmetry; apply Nat.ltb_ge; exact Hn).
      reflexivity. }
    destruct (py_int_digits max_str_digits X HX) as (dx & Hdx & ->).
    destruct (py_int_digits 0 X HX) as (dx' & Hdx' & ->).
    destruct (py_int_digits max_str_digits Y HY) as (dy & Hdy & ->).
    destruct (py_int_digits 0 Y HY) as (dy' & Hdy' & ->).
    rewrite !Hnot by lia.
    assert (dx' = dx) by congruence. assert (dy' = dy) by congruence. subst.
    simpl. eauto.
  - rewrite !(metrics_of_content_none _ _ E). eauto.
Qed.

Lemma X13_short_reports_never_fail_witness :
  exists metrics,
    metrics_of_content 4300 (u "Resolved: 10 / 20 50.00%") = Ok metrics
    /\ metrics_of_content 0 (u "Resolved: 10 / 20 50.00%") = Ok metrics.
Proof.
  apply (X13_short_reports_never_fail 4300 (u "Resolved: 10 / 20 50.00%")).
  vm_compute. lia.
Defined.

(** The letter R occurs in a text of the shape of the pattern only as its
    first character. *)
Lemma resolved_text_single_R X Y R t :
  resolved_text X Y R t -> exists t', t = 82%N :: t' /\ ~ In 82%N t'.
Proof.
  intros (ws1 & ws2 & ws3 & ws4 & H1 & H2 & H3 & H4 & HX & HY & HR & ->).
  destruct HR as (I & F & HI & HF & ->).
  eexists. split; [reflexivity|].
  assert (Hs : forall ws, spaces ws -> ~ In 82%N ws).
  { intros ws Hws Hin. unfold spaces in Hws. rewrite forallb_forall in Hws.
    specialize (Hws _ Hin). vm_compute in Hws. discriminate. }
  assert (Hd : forall ds, digits ds -> ~ In 82%N ds).
  { intros ds [_ Hds] Hin. rewrite forallb_forall in Hds.
    specialize (Hds _ Hin). vm_compute in Hds. discriminate. }
  intros Hin. cbv [u map list_ascii_of_string] in Hin. cbn [app] in Hin.
  repeat match type of Hin with
         | In _ (_ :: _) =>
             destruct Hin as [Hin | Hin]; [vm_compute in Hin; discriminate Hin|]
         | In _ (?l ++ _) =>
             apply in_app_or in Hin as [Hin | Hin];
             [first [exact (Hs l ltac:(assumption) Hin)
                    | exact (Hd l ltac:(assumption) Hin)
                    | idtac]|]
         end.
  - exact (Hd F HF Hin).
  - destruct Hin.
Qed.

(** Changing the text after a match cannot create a match that starts
    before it. *)
Lemma no_earlier_match_stable before t after after' :
  matches_pattern t ->
  (forall j, j < List.length before -> ~ match_at (before ++ t ++ after) j) ->
  forall j, j < List.length before -> ~ match_at (before ++ t ++ after') j.
Proof.
  intros Ht Hfirst j Hj [_ (t2 & rest2 & Hs & Ht2)].
  rewrite skipn_app in Hs.
  replace (j - List.length before) with 0 in Hs by lia. cbn [skipn] in Hs.
  assert (Hp : skipn j before <> []).
  { intros E. apply (f_equal (@List.length _)) in E.
    rewrite length_skipn in E. simpl in E. lia. }
  assert (Hold : forall l, skipn j before = t2 ++ l -> False).
  { intros l E. apply (Hfirst j Hj). split; [rewrite length_app; lia|].
    exists t2, (l ++ t ++ after). split; [|exact Ht2].
    rewrite skipn_app.
    replace (j - List.length before) with 0 by lia. cbn [skipn].
    rewrite E, <- app_assoc. reflexivity. }
  apply app_eq_app in Hs as [l [[E _] | [E E']]].
  - exact (Hold l E).
  - destruct l as [|c l].
    + rewrite app_nil_r in E. apply (Hold []). rewrite app_nil_r. congruence.
    + destruct Ht2 as (X2 & Y2 & R2 & Ht2).
      apply resolved_text_single_R in Ht2 as (t2' & E2 & Hno).
      apply matches_pattern_prefix in Ht as [r ->].
      change (u "Resolved:" ++ r) with (82%N :: u "esolved:" ++ r) in E'.
      cbn [app] in E'. injection E' as <- _.
      destruct (skipn j before) as [|a p2]; [congruence|].
      rewrite E2 in E. cbn [app] in E. injection E as _ ->.
      apply Hno, in_or_app. right. left. reflexivity.
Qed.

(** The matcher on a text of the shape of the pattern, whatever follows:
    it takes the whole text, and its groups do not depend on what
    follows. *)
Lemma sre_match_shape_stable t :
  matches_pattern t ->
  exists G1 G2 G3,
    forall e, exists ms,
      sre_match resolved_code (t ++ e) [] = Some (ms, e)
      /\ forall s0,
           group {| m_start := s0; m_marks := ms; m_end := e |} 1 = Some G1 /\
           group {| m_start := s0; m_marks := ms; m_end := e |} 2 = Some G2 /\
           group {| m_start := s0; m_marks := ms; m_end := e |} 3 = Some G3.
Proof.
  intros (X & Y & R & ws1 & ws2 & ws3 & ws4 & H1 & H2 & H3 & H4 & HX & HY & HR & ->).
  destruct HR as (I & F & HI & HF & ->).
  destruct ws4 as [|w ws4].
  - destruct (exists_last (proj1 HI)) as (I' & d & ->).
    assert (HD : digits (Y ++ I')).
    { destruct HY as [HYn HYd]. destruct HI as [_ HId].
      rewrite forallb_app in HId. apply andb_true_iff in HId as [HId _].
      split; [destruct Y; [congruence | discriminate]|].
      rewrite forallb_app, HYd, HId. reflexivity. }
    assert (Hd : Py_UNICODE_ISDECIMAL d = true).
    { destruct HI as [_ HId]. rewrite forallb_app in HId.
      apply andb_true_iff in HId as [_ HId]. simpl in HId.
      rewrite andb_true_r in HId. exact HId. }
    exists X, (Y ++ I'), ([d] ++ u "." ++ F). intros e.
    destruct (sre_match_adjacent ws1 X ws2 ws3 (Y ++ I') d F e
                H1 H2 H3 HX HD Hd HF) as (ms & Hm & G).
    exists ms. split; [|exact G].
    rewrite <- Hm. f_equal.
    repeat (rewrite <- ?app_assoc; cbn [app]). reflexivity.
  - exists X, Y, (I ++ u "." ++ F). intros e.
    destruct (sre_match_separated ws1 X ws2 ws3 Y (w :: ws4) I F e
                H1 H2 H3 H4 ltac:(discriminate) HX HY HI HF) as (ms & Hm & G).
    exists ms. split; [|exact G].
    rewrite <- Hm. f_equal.
    repeat (rewrite <- ?app_assoc; cbn [app]). reflexivity.
Qed.

(** X14. The first match wins and nothing after it matters: when the
    leftmost match of a text is [t], replacing whatever follows [t] by any
    other text (further Resolved lines included) leaves the result of the
    extractor unchanged. *)
Theorem X14_text_after_first_match_ignored
  (max_str_digits : nat) (before t after after' : str) :
  matches_pattern t ->
  (forall j, j < List.length before -> ~ match_at (before ++ t ++ after) j) ->
  metrics_of_content max_str_digits (before ++ t ++ after')
  = metrics_of_content max_str_digits (before ++ t ++ after).
Proof.
  intros Ht Hfirst.
  pose proof (no_earlier_match_stable before t after after' Ht Hfirst) as Hfirst'.
  destruct (sre_match_shape_stable t Ht) as (G1 & G2 & G3 & Hm).
  assert (Hs : forall e,
             (forall j, j < List.length before -> ~ match_at (before ++ t ++ e) j) ->
             metrics_of_content max_str_digits (before ++ t ++ e) =
             (let? x := py_int max_str_digits G1 in
              let? y := py_int max_str_digits G2 in
              let? z := py_float G3 in
              Ok (three_metrics x y z))%result).
  { intros e He. destruct (Hm e) as (ms & Hme & G).
    destruct (G (t ++ e)) as (E1 & E2 & E3).
    apply (metrics_of_content_some _ _
             {| m_start := t ++ e; m_marks := ms; m_end := e |}); auto.
    unfold re_search_resolved. rewrite sre_search_skip.
    - rewrite sre_search_unfold, Hme. reflexivity.
    - intros j Hj. apply sre_match_resolved_none; [|apply He, Hj].
      rewrite length_app. lia. }
  rewrite (Hs after Hfirst), (Hs after' Hfirst'). reflexivity.
Qed.

Lemma X14_text_after_first_match_ignored_witness :
  metrics_of_content 4300
    (u "Results" ++ nl ++ u "Resolved: 1 / 2 50.0%" ++ nl ++ u "Resolved: 3 / 4 75.0%")
  = metrics_of_content 4300
      (u "Results" ++ nl ++ u "Resolved: 1 / 2 50.0%" ++ u " (first split)").
Proof.
  apply (X14_text_after_first_match_ignored 4300 (u "Results" ++ nl)
           (u "Resolved: 1 / 2 50.0%") (u " (first split)")
           (nl ++ u "Resolved: 3 / 4 75.0%")).
  - exists (u "1"), (u "2"), (u "50.0"), (u " "), (u " "), (u " "), (u " ").
    repeat split; try discriminate.
    exists (u "50"), (u "0"). repeat split; discriminate.
  - intros j Hj.
    do 8 (destruct j as [|j]; [apply match_at_refute; vm_compute; reflexivity|]).
    simpl in Hj. lia.
Defined.

(** X15. Text before the first match is skipped: a prefix without a
    capital R (so without the start of a match) does not change what the
    extractor returns. *)
Theorem X15_text_before_ignored
  (max_str_digits : nat) (before s : str) :
  ~ In 82%N before ->
  metrics_of_content max_str_digits (before ++ s)
  = metrics_of_content max_str_digits s.
Proof.
  intros Hno. unfold metrics_of_content, re_search_resolved.
  rewrite sre_search_skip; [reflexivity|].
  intros j Hj. rewrite skipn_app.
  replace (j - List.length before) with 0 by lia. cbn [skipn].
  destruct (skipn j before) as [|c r] eqn:E.
  - apply (f_equal (@List.length _)) in E. rewrite length_skipn in E.
    simpl in E. lia.
  - assert (Hc : In c before).
    { rewrite <- (firstn_skipn j before), E. apply in_or_app. right. left.
      reflexivity. }
    rewrite resolved_code_eq. cbn [app sre_match atom_matches].
    destruct (c =? 82)%N eqn:Ec; [|reflexivity].
    apply N.eqb_eq in Ec. subst c. contradiction.
Qed.

Lemma X15_text_before_ignored_witness :
  metrics_of_content 4300 (u "## summary of the run" ++ nl ++ u "Resolved: 1 / 2 50.0%")
  = metrics_of_content 4300 (u "Resolved: 1 / 2 50.0%").
Proof.
  apply (X15_text_before_ignored 4300 (u "## summary of the run" ++ nl)
           (u "Resolved: 1 / 2 50.0%")).
  intros H. vm_compute in H.
  repeat (destruct H as [H | H]; [discriminate H|]). exact H.
Defined.

Lemma split_slash_app_slash (d : str) :
  forall cur, split_slash (d ++ [47%N]) cur = split_slash d cur ++ [[]].
Proof.
  induction d as [|c d IH]; intros cur; simpl.
  - reflexivity.
  - destruct (c =? 47)%N; rewrite IH; reflexivity.
Qed.

Lemma components_app_slash (d : str) : components (d ++ [47%N]) = components d.
Proof.
  unfold components. rewrite split_slash_app_slash, filter_app. simpl.
  apply app_nil_r.
Qed.

Lemma root_of_app_slash (d : str) :
  (exists c : char, In c d /\ c <> 47%N) -> root_of (d ++ [47%N]) = root_of d.
Proof.
  intros (c & Hin & Hc).
  destruct d as [|a [|b [|c3 r]]]; simpl in Hin.
  - contradiction.
  - destruct Hin as [-> | []]. simpl.
    destruct (c =? 47)%N eqn:E; [apply N.eqb_eq in E; congruence | reflexivity].
  - simpl. destruct (a =? 47)%N eqn:Ea; [|reflexivity].
    destruct (b =? 47)%N eqn:Eb; [|reflexivity].
    apply N.eqb_eq in Ea, Eb. subst.
    destruct Hin as [<- | [<- | []]]; congruence.
  - reflexivity.
Qed.

(** X16. A trailing slash on the experiment directory changes nothing:
    for a directory text with at least one character that is not a
    slash, [dir/] and [dir] resolve to the same summary path and give the
    same run. *)
Theorem X16_trailing_slash_irrelevant
  (max_str_digits : nat) (fs : filesystem) (experiment_dir : str) :
  (exists c : char, In c experiment_dir /\ c <> 47%N) ->
  summary_path_of (experiment_dir ++ u "/") = summary_path_of experiment_dir
  /\ run max_str_digits fs (experiment_dir ++ u "/")
     = run max_str_digits fs experiment_dir.
Proof.
  intros H.
  assert (E : summary_path_of (experiment_dir ++ u "/")
              = summary_path_of experiment_dir).
  { unfold summary_path_of, mkPath. change (u "/") with [47%N].
    rewrite components_app_slash, (root_of_app_slash _ H). reflexivity. }
  split; [exact E|]. unfold run, main. cbv zeta. rewrite E. reflexivity.
Qed.

Lemma X16_trailing_slash_irrelevant_witness :
  summary_path_of (u "runs/exp1/") = summary_path_of (u "runs/exp1").
Proof.
  refine (proj1 (X16_trailing_slash_irrelevant 4300 (fun _ => None)
                   (u "runs/exp1") _)).
  exists 114%N. split; [left; reflexivity | discriminate].
Defined.

Lemma join_app_two sep cs a b :
  join sep (cs ++ [a; b]) =
  match cs with
  | [] => a ++ sep ++ b
  | _ => join sep cs ++ sep ++ a ++ sep ++ b
  end.
Proof.
  induction cs as [|c cs IH]; [reflexivity|].
  destruct cs as [|c' cs].
  - simpl. reflexivity.
  - change (join sep ((c :: c' :: cs) ++ [a; b]))
      with (c ++ sep ++ join sep ((c' :: cs) ++ [a; b])).
    rewrite IH. change (join sep (c :: c' :: cs)) with (c ++ sep ++ join sep (c' :: cs)).
    repeat rewrite <- app_assoc. reflexivity.
Qed.

Lemma to_str_with_parts p :
  parts p <> [] -> to_str p = root p ++ join (u "/") (parts p).
Proof.
  unfold to_str. intros H. destruct (root p); [|reflexivity].
  destruct (parts p); [congruence | reflexivity].
Qed.

(** X17. Whatever the experiment directory, the summary path that [main]
    prints in its diagnostics ends with [artifacts/summary_stats.md], and
    what precedes is empty or ends with a slash: the file is looked for
    under that directory and nowhere else. *)
Theorem X17_summary_path_suffix (experiment_dir : str) :
  exists dir,
    to_str (summary_path_of experiment_dir)
    = dir ++ u "artifacts/summary_stats.md"
    /\ (dir = [] \/ exists d, dir = d ++ u "/").
Proof.
  destruct (summary_path_of_parts experiment_dir) as [Hr Hp].
  rewrite (to_str_with_parts (summary_path_of experiment_dir))
    by (rewrite Hp; destruct (components experiment_dir); discriminate).
  rewrite Hr, Hp, join_app_two.
  destruct (components experiment_dir) as [|c cs] eqn:Ec.
  - exists (root_of experiment_dir). split; [reflexivity|].
    unfold root_of.
    destruct experiment_dir as [|a [|b [|c3 r]]]; simpl; auto;
      repeat match goal with
             | |- context [if ?b then _ else _] => destruct b
             end; auto;
      try (right; exists []; reflexivity);
      try (right; exists (u "/"); reflexivity).
  - exists (root_of experiment_dir ++ join (u "/") (c :: cs) ++ u "/").
    split.
    + repeat rewrite <- app_assoc. reflexivity.
    + right. exists (root_of experiment_dir ++ join (u "/") (c :: cs)).
      rewrite <- app_assoc. reflexivity.
Qed.
